(** * AI-Agents: the YouTube summarizer and the multi-tool agent

    A shallow embedding of [classes/YouTubeSummarizer.py],
    [classes/MultiTools.py] and [utils/prompts.py].

    - Python [str] values are [string]s; the operations used by the code
      ([in], [split], [join], list indexing, [str.format]) are written out
      below with the exceptions Python raises.  They look at characters
      through equality only, so nothing depends on the size of the
      alphabet.
    - Calls that leave the process (the transcript service, the tokenizer,
      the completion service) are fields of a [World]; every call and every
      [print] is recorded in an event trace, so that "is called once" and
      "is not called" are statements about the trace.  Constructing the
      completion model sends nothing, but it can raise: that too is a
      field of the [World].
    - The menu loop of [agents.py] runs over the lines that standard
      input holds; reading past the last line raises [EOFError]. *)

From Stdlib Require Import String Ascii List ZArith QArith Lia Bool DecimalString.
Import ListNotations.
Local Close Scope Q_scope.
Local Open Scope string_scope.

(* ===================================================================== *)
(** * Python values, exceptions and string primitives                     *)
(* ===================================================================== *)

Module Py.

(** An exception raised by third-party code: its class name and [str(e)]. *)
Record foreign_exn := { exn_class : string; exn_text : string }.

(** Exceptions.  [ValueError] and [Exception] are the two classes the
    repository raises itself; [IndexError] and [KeyError] come from list
    indexing and from template rendering; [Foreign] wraps whatever an
    external library raised. *)
Inductive exn :=
| ValueError (msg : string)
| IndexError (msg : string)
| KeyError (key : string)
| Exception (msg : string)
| Foreign (e : foreign_exn).

(** [str(e)] *)
Definition str (e : exn) : string :=
  match e with
  | ValueError m | IndexError m | Exception m => m
  | KeyError k => "'" ++ k ++ "'"
  | Foreign f => exn_text f
  end.

Inductive result (A : Type) :=
| Ok (a : A)
| Raise (e : exn).
Arguments Ok {A} a.
Arguments Raise {A} e.

Definition rbind {A B} (r : result A) (k : A -> result B) : result B :=
  match r with
  | Ok a => k a
  | Raise e => Raise e
  end.

Declare Scope py_scope.
Delimit Scope py_scope with py.
Notation "x <- r ;; k" := (rbind r (fun x => k))
  (at level 61, r at next level, right associativity) : py_scope.

(** ** Strings *)

(** [s.startswith(p)] *)
Fixpoint startswith (p s : string) : bool :=
  match p, s with
  | EmptyString, _ => true
  | String _ _, EmptyString => false
  | String a p', String b s' => if Ascii.eqb a b then startswith p' s' else false
  end.

(** [s[n:]] *)
Fixpoint drop (n : nat) (s : string) : string :=
  match n, s with
  | O, _ => s
  | S _, EmptyString => EmptyString
  | S n', String _ s' => drop n' s'
  end.

(** [sub in s] *)
Fixpoint py_in (sub s : string) : bool :=
  match s with
  | EmptyString => startswith sub EmptyString
  | String _ s' => startswith sub s || py_in sub s'
  end.

(** [not s] for a string: the empty string is the only falsy one. *)
Definition py_not (s : string) : bool :=
  match s with
  | EmptyString => true
  | String _ _ => false
  end.

(** The text before and after the leftmost occurrence of [sep] in [s]
    ([s.partition(sep)] when [sep] occurs), [None] when it does not occur. *)
Fixpoint cut (sep s : string) : option (string * string) :=
  match s with
  | EmptyString => if startswith sep EmptyString then Some (EmptyString, EmptyString) else None
  | String c s' =>
      if startswith sep s then Some (EmptyString, drop (String.length sep) s)
      else match cut sep s' with
           | Some (a, b) => Some (String c a, b)
           | None => None
           end
  end.

(** The scan of [s.split(sep)]: cut at the leftmost occurrence, continue
    on what follows it.  Every step consumes at least [length sep]
    characters, so [length s] steps always suffice (see [split_fuel_enough]). *)
Fixpoint split_fuel (n : nat) (sep s : string) : list string :=
  match n with
  | O => [s]
  | S n' =>
      match cut sep s with
      | None => [s]
      | Some (a, b) => a :: split_fuel n' sep b
      end
  end.

(** [s.split(sep)]: Python raises [ValueError] on an empty separator. *)
Definition split (s sep : string) : result (list string) :=
  match sep with
  | EmptyString => Raise (ValueError "empty separator")
  | String _ _ => Ok (split_fuel (String.length s) sep s)
  end.

(** [sep.join(l)] *)
Fixpoint join (sep : string) (l : list string) : string :=
  match l with
  | [] => EmptyString
  | [x] => x
  | x :: rest => x ++ sep ++ join sep rest
  end.

(** [l[i]]: a negative index counts from the end; out of range raises
    [IndexError]. *)
Definition index {A} (l : list A) (i : Z) : result A :=
  let n := Z.of_nat (List.length l) in
  let j := (if i <? 0 then i + n else i)%Z in
  if ((j <? 0) || (n <=? j))%Z then Raise (IndexError "list index out of range")
  else match nth_error l (Z.to_nat j) with
       | Some x => Ok x
       | None => Raise (IndexError "list index out of range")
       end.

(** [str(n)] for a non-negative integer. *)
Definition str_of_nat (n : nat) : string := NilZero.string_of_uint (Nat.to_uint n).

(** [repr(s)] for a string without quotes, backslashes or control
    characters (all the strings the code puts in a list are of this kind). *)
Definition repr_str (s : string) : string := "'" ++ s ++ "'".

(** [str(l)] for a list of strings. *)
Definition str_of_list (l : list string) : string :=
  "[" ++ join ", " (map repr_str l) ++ "]".

(** ** Specification vocabulary for strings *)

(** [sub] occurs in [s]. *)
Definition contains (sub s : string) : Prop :=
  exists a b, s = a ++ sub ++ b.

(** [a] and [b] are the text before and after the first occurrence of
    [sep] in [s]. *)
Definition first_cut (sep s a b : string) : Prop :=
  s = a ++ sep ++ b /\
  forall a' b', s = a' ++ sep ++ b' -> String.length a <= String.length a'.

(** [a] is [s] up to its first [sep], or all of [s] when there is none. *)
Definition before_first (sep s a : string) : Prop :=
  (~ contains sep s /\ a = s) \/ exists b, first_cut sep s a b.

(** [seg] is what follows the last [sep] of [s] (all of [s] when there is
    none). *)
Definition after_last (sep s seg : string) : Prop :=
  ~ contains sep seg /\ (s = seg \/ exists pre, s = pre ++ sep ++ seg).

End Py.

(* ===================================================================== *)
(** * The outside world and the effect monad                              *)
(* ===================================================================== *)

Module Effects.
Import Py.

(** One caption record of the transcript service; the code reads [text] only. *)
Record Segment := { text : string; start : Q; duration : Q }.

(** The settings of a [ChatGroq] model: the keyword arguments the code
    passes to [ChatGroq(...)], and what the constructed model holds and
    sends with each request.  [None] for [max_tokens] and [timeout] is
    Python's [None]; temperatures are exact rationals, the values of the
    decimal literals. *)
Record ChatGroq := {
  model : string;
  temperature : Q;
  max_tokens : option nat;
  timeout : option Q;
  max_retries : nat
}.

(** What an observer of the process sees, in order. *)
Inductive event :=
| Stdout (line : string)
| TiktokenEncode (model_name text : string)
| TranscriptCall (video_id : string)
| CompletionCall (llm : ChatGroq) (prompt : string).

(** The third-party services.  Each either returns or raises.
    [ChatGroq_init kwargs] is what constructing a model from [kwargs]
    raises, if anything (the client library raises when no API key is
    configured, for one); [ChatGroq_invoke] takes the constructed model. *)
Record World := {
  YouTubeTranscriptApi_get_transcript : string -> foreign_exn + list Segment;
  tiktoken_encode : string -> string -> foreign_exn + list N;
  ChatGroq_init : ChatGroq -> option foreign_exn;
  ChatGroq_invoke : ChatGroq -> string -> foreign_exn + string;
  PythonREPL_run : string -> string;
  WikipediaQueryRun_run : string -> string
}.

(** A computation: the events it emitted and how it ended. *)
Definition M (A : Type) : Type := (list event * result A)%type.

Definition trace {A} (m : M A) : list event := fst m.
Definition outcome {A} (m : M A) : result A := snd m.

Definition ret {A} (a : A) : M A := ([], Ok a).
Definition raise {A} (e : exn) : M A := ([], Raise e).
Definition emit (ev : event) : M unit := ([ev], Ok tt).
Definition lift {A} (r : result A) : M A := ([], r).

Definition bind {A B} (m : M A) (k : A -> M B) : M B :=
  match m with
  | (t, Ok a) => let '(t', r) := k a in ((t ++ t')%list, r)
  | (t, Raise e) => (t, Raise e)
  end.

(** [try: body  except Exception as e: handler(e)] *)
Definition try_except {A} (body : M A) (handler : exn -> M A) : M A :=
  match body with
  | (t, Ok a) => (t, Ok a)
  | (t, Raise e) => let '(t', r) := handler e in ((t ++ t')%list, r)
  end.

(** A call to an external service: the call is observed, then it returns
    or raises. *)
Definition call {A} (ev : event) (answer : foreign_exn + A) : M A :=
  ([ev], match answer with
         | inr a => Ok a
         | inl e => Raise (Foreign e)
         end).

Declare Scope m_scope.
Delimit Scope m_scope with M.
Notation "x <- m ;; k" := (bind m (fun x => k))
  (at level 61, m at next level, right associativity) : m_scope.
Notation "m ;;; k" := (bind m (fun _ => k))
  (at level 61, right associativity) : m_scope.

(** The completion calls of a trace, in order. *)
Fixpoint completion_calls (t : list event) : list (ChatGroq * string) :=
  match t with
  | [] => []
  | CompletionCall llm p :: t' => (llm, p) :: completion_calls t'
  | _ :: t' => completion_calls t'
  end.

(** The transcript-service calls of a trace, in order. *)
Fixpoint transcript_calls (t : list event) : list string :=
  match t with
  | [] => []
  | TranscriptCall v :: t' => v :: transcript_calls t'
  | _ :: t' => transcript_calls t'
  end.

End Effects.

(* ===================================================================== *)
(** * langchain's [PromptTemplate] and the processing chain               *)
(* ===================================================================== *)

Module Langchain.
Import Py Effects.

Record PromptTemplate := {
  template : string;
  input_variables : list string
}.

Fixpoint lookup (k : string) (kwargs : list (string * string)) : option string :=
  match kwargs with
  | [] => None
  | (k', v) :: rest => if String.eqb k k' then Some v else lookup k rest
  end.

(** [template.format] applied to the keyword arguments [kwargs], for templates whose replacement fields are
    plain names (no doubled braces, conversions or format specs: the two
    templates of the repository have none).  [field] is [Some name] while
    the scan is inside a replacement field.  A value is inserted as it is
    and not scanned again. *)
Fixpoint format_go (t : string) (field : option string)
    (kwargs : list (string * string)) : result string :=
  match t with
  | EmptyString =>
      match field with
      | None => Ok EmptyString
      | Some _ => Raise (ValueError "expected '}' before end of string")
      end
  | String c t' =>
      match field with
      | None =>
          if Ascii.eqb c "{" then format_go t' (Some EmptyString) kwargs
          else if Ascii.eqb c "}" then Raise (ValueError "Single '}' encountered in format string")
          else (r <- format_go t' None kwargs ;; Ok (String c r))%py
      | Some name =>
          if Ascii.eqb c "}" then
            match lookup name kwargs with
            | Some v => (r <- format_go t' None kwargs ;; Ok (v ++ r))%py
            | None => Raise (KeyError name)
            end
          else format_go t' (Some (name ++ String c EmptyString)) kwargs
      end
  end.

(** [prompt.format] applied to the keyword arguments [kwargs]. *)
Definition format (prompt : PromptTemplate) (kwargs : list (string * string)) : result string :=
  format_go (template prompt) None kwargs.

(** What a model constructed from [kwargs] holds: the library stores a
    temperature of 0 as 1e-08, and everything else as it is given. *)
Definition ChatGroq_stored (kwargs : ChatGroq) : ChatGroq :=
  if Qeq_bool (temperature kwargs) 0 then
    {| model := model kwargs;
       temperature := 1 # 100000000;
       max_tokens := max_tokens kwargs;
       timeout := timeout kwargs;
       max_retries := max_retries kwargs |}
  else kwargs.

(** [ChatGroq(model=..., temperature=..., max_tokens=..., timeout=...,
    max_retries=...)]: the constructor validates its environment and
    raises, or returns the model.  No request is sent. *)
Definition ChatGroq_new (W : World) (kwargs : ChatGroq) : M ChatGroq :=
  match ChatGroq_init W kwargs with
  | Some e => raise (Foreign e)
  | None => ret (ChatGroq_stored kwargs)
  end.

(** [(inputs | prompt | model | StrOutputParser()).invoke(x)], where
    [kwargs] is what the first stage of the chain builds from [x]: the
    prompt is rendered, the rendered text is sent to the completion model,
    and the text of its reply is returned. *)
Definition chain_invoke (W : World) (kwargs : list (string * string))
    (prompt : PromptTemplate) (llm : ChatGroq) : M string :=
  (rendered <- lift (format prompt kwargs) ;;
   call (CompletionCall llm rendered) (ChatGroq_invoke W llm rendered))%M.

End Langchain.

(* ===================================================================== *)
(** * utils/prompts.py                                                    *)
(* ===================================================================== *)

Module Prompts.
Import Py Effects.

(** [count_tokens(text, model_name)] *)
Definition count_tokens (W : World) (text model_name : string) : M nat :=
  (tokens <- call (TiktokenEncode model_name text) (tiktoken_encode W model_name text) ;;
   ret (List.length tokens))%M.

(** [analyze_prompt(prompt_text, model_name="gpt-4o-mini")] *)
Definition analyze_prompt (W : World) (prompt_text : string) : M unit :=
  (num_tokens <- count_tokens W prompt_text "gpt-4o-mini" ;;
   emit (Stdout ("Prompt Text: " ++ prompt_text)) ;;;
   emit (Stdout ("Prompt Input Tokens: " ++ str_of_nat num_tokens)))%M.

End Prompts.

(* ===================================================================== *)
(** * classes/YouTubeSummarizer.py                                        *)
(* ===================================================================== *)

Module YouTubeSummarizer.
Import Py Effects Langchain Prompts.

(** The instance attributes. *)
Record self_t := {
  model_name : string;
  top_n_points : nat
}.

(** [YouTubeSummarizer()] *)
Definition __init__ : M self_t :=
  (let self := {| model_name := "llama-3.2-3b-preview"; top_n_points := 5 |} in
   emit (Stdout ("Using AI Model: " ++ model_name self ++ "
")) ;;;
   ret self)%M.

(** [get_video_id(self, url)]; [self] is not used. *)
Definition get_video_id (url : string) : result string :=
  if py_in "youtu.be" url then
    (parts <- split url "/" ;;
     last <- index parts (-1) ;;
     pieces <- split last "?" ;;
     index pieces 0)%py
  else if py_in "youtube.com" url then
    (parts <- split url "v=" ;;
     value <- index parts 1 ;;
     pieces <- split value "&" ;;
     index pieces 0)%py
  else
    Raise (ValueError "URL must be a valid YouTube URL (youtube.com or youtu.be format)").

(** [get_transcript(self, video_id)]; [self] is not used.  The whole of
    the [try] body, the service call and the join, is under the handler. *)
Definition get_transcript (W : World) (video_id : string) : M string :=
  if py_not video_id then
    raise (ValueError "Video ID is required")
  else
    try_except
      (transcript_segments <-
         call (TranscriptCall video_id) (YouTubeTranscriptApi_get_transcript W video_id) ;;
       let full_transcript := join " " (map text transcript_segments) in
       ret full_transcript)%M
      (fun e => raise (Exception ("Failed to retrieve transcript: " ++ str e))).

(** [create_prompt(self)] *)
Definition create_prompt : PromptTemplate :=
  {| template := "
        Summarize the following YouTube video transcript:

        {YouTube_Transcript}

        Please provide:
        1. A brief overview of the video's main topic or theme
        2. Identify the speakers.
        3. The top {top_n} most important points or insights presented, with a short explanation for each
        4. Any notable quotes or statements made by the speaker(s)
        5. Key takeaways or conclusions from the video

        Your response should be well-structured and easy to read
        ";
     input_variables := ["YouTube_Transcript"; "top_n"] |}.

(** [get_prompt_tokens(self, transcript, prompt)] *)
Definition get_prompt_tokens (W : World) (self : self_t) (transcript : string)
    (prompt : PromptTemplate) : M unit :=
  (formatted_prompt <-
     lift (format prompt [("YouTube_Transcript", transcript);
                          ("top_n", str_of_nat (top_n_points self))]) ;;
   analyze_prompt W formatted_prompt)%M.

(** The keyword arguments [summarize] gives to [ChatGroq(...)]. *)
Definition summarize_model (self : self_t) : ChatGroq :=
  {| model := model_name self;
     temperature := 1 # 2;
     max_tokens := None;
     timeout := None;
     max_retries := 2 |}.

(** [summarize(self, transcript)] *)
Definition summarize (W : World) (self : self_t) (transcript : string) : M string :=
  if py_not transcript then
    raise (ValueError "Transcript is required for summarization")
  else
    (let prompt := create_prompt in
     get_prompt_tokens W self transcript prompt ;;;
     model <- ChatGroq_new W (summarize_model self) ;;
     try_except
       (chain_invoke W [("YouTube_Transcript", transcript);
                        ("top_n", str_of_nat (top_n_points self))] prompt model)
       (fun e => raise (Exception ("AI summarization failed: " ++ str e))))%M.

(** [process_video(self, url)] *)
Definition process_video (W : World) (self : self_t) (url : string) : M string :=
  (video_id <- lift (get_video_id url) ;;
   transcript <- get_transcript W video_id ;;
   summarize W self transcript)%M.

(** The error kinds of the specification, as the exceptions the code raises. *)
Definition InvalidURL : exn :=
  ValueError "URL must be a valid YouTube URL (youtube.com or youtu.be format)".
Definition MissingArgument_video_id : exn := ValueError "Video ID is required".
Definition TranscriptUnavailable (cause : exn) : exn :=
  Exception ("Failed to retrieve transcript: " ++ str cause).

End YouTubeSummarizer.

(* ===================================================================== *)
(** * classes/MultiTools.py                                               *)
(* ===================================================================== *)

Module MultiTools.
Import Py Effects Langchain Prompts.

(** langchain's [Tool(name=..., func=..., description=...)] *)
Record Tool := {
  name : string;
  func : string -> string;
  description : string
}.

(** The instance attributes. *)
Record self_t := {
  model_name : string;
  tools : list Tool;
  tools_str : string;
  tool_names : list string
}.

(** [_initialize_tools(self)]: the attributes after the call. *)
Definition _initialize_tools (W : World) (self : self_t) : self_t :=
  let python_repl :=
    {| name := "python repl";
       func := PythonREPL_run W;
       description := "Useful for executing Python code to answer computational questions" |} in
  let wikipedia :=
    {| name := "wikipedia";
       func := WikipediaQueryRun_run W;
       description := "Useful for looking up factual information about topics, countries or people" |} in
  let tools' := [python_repl; wikipedia] in
  {| model_name := model_name self;
     tools := tools';
     tools_str := join "" (map (fun t => name t ++ ": " ++ description t ++ "
") tools');
     tool_names := map name tools' |}.

(** [MultiToolsAgent()] *)
Definition __init__ (W : World) : M self_t :=
  (let model_name' := "llama-3.2-3b-preview" in
   emit (Stdout ("Using AI Model: " ++ model_name' ++ "
")) ;;;
   let self := {| model_name := model_name'; tools := [];
                  tools_str := ""; tool_names := [] |} in
   ret (_initialize_tools W self))%M.

(** [_create_prompt(self)] *)
Definition _create_prompt : PromptTemplate :=
  {| template := "
        Answer the following questions as best you can. You have access to the following tools:

        {tools}

        Use the following format:

        Question: the input question you must answer
        Thought: you should always think about what to do
        Action: the action to take, should be one of {tool_names}
        Action Input: the input to the action
        Observation: the result of the action
        ... (this Thought/Action/Action Input/Observation can repeat N times)
        Thought: I now know the final answer
        Final Answer: the final answer to the original input question

        Begin!

        Question: {question}
        ";
     input_variables := ["tools"; "tool_names"; "question"] |}.

(** [_analyze_prompt_tokens(self, question, prompt)] *)
Definition _analyze_prompt_tokens (W : World) (self : self_t) (question : string)
    (prompt : PromptTemplate) : M unit :=
  (prompt_text <-
     lift (format prompt [("tools", tools_str self);
                          ("tool_names", str_of_list (tool_names self));
                          ("question", question)]) ;;
   analyze_prompt W prompt_text)%M.

(** The keyword arguments [ask] gives to [ChatGroq(...)]. *)
Definition ask_model (self : self_t) : ChatGroq :=
  {| model := model_name self;
     temperature := 0;
     max_tokens := None;
     timeout := None;
     max_retries := 2 |}.

(** [ask(self, question)]; the argument is [None] or a string. *)
Definition ask (W : World) (self : self_t) (question : option string) : M string :=
  match question with
  | None => raise (ValueError "Question cannot be None")
  | Some q =>
      (let prompt := _create_prompt in
       _analyze_prompt_tokens W self q prompt ;;;
       model <- ChatGroq_new W (ask_model self) ;;
       try_except
         (chain_invoke W [("question", q);
                          ("tools", tools_str self);
                          ("tool_names", str_of_list (tool_names self))] prompt model)
         (fun e => raise (Exception ("Error processing question: " ++ str e))))%M
  end.

(** The error kind of the specification for an absent question. *)
Definition MissingArgument_question : exn := ValueError "Question cannot be None".

End MultiTools.

(* ===================================================================== *)
(** * agents.py                                                           *)
(* ===================================================================== *)

Module Agents.
Import Py Effects.

(** What the terminal shows and takes: the events of the two pipelines
    and of [print], and every [input(prompt)] with the line it read
    ([None] when standard input is exhausted). *)
Inductive cli_event :=
| Ev (e : event)
| Input (prompt : string) (line : option string).

(** How [main] ends: by a call of [sys.exit(code)], or by an exception
    nobody caught (the interpreter then prints the traceback and gives
    the process a non-zero status of its own). *)
Inductive ending :=
| Exit (code : Z)
| Uncaught (e : exn).

(** After one pass of the [while True] body: go round again with the
    unread lines, or end. *)
Inductive step :=
| Continue (stdin : list string)
| Stop (e : ending).

(** What [input] raises at end of input. *)
Definition EOFError : exn :=
  Foreign {| exn_class := "EOFError"; exn_text := "EOF when reading a line" |}.

(** [print(text)] *)
Definition print (text : string) : cli_event := Ev (Stdout text).

(** [not groq_api_key], for the value of [os.getenv]: [None] or a string. *)
Definition unset (value : option string) : bool :=
  match value with
  | None => true
  | Some s => py_not s
  end.

(** The service events among the terminal events. *)
Fixpoint services (t : list cli_event) : list event :=
  match t with
  | [] => []
  | Ev e :: t' => e :: services t'
  | Input _ _ :: t' => services t'
  end.

(** The rest of a [try] branch once the line is read: the request runs;
    its answer is printed, or the handler of [except Exception] prints
    the error. *)
Definition respond (request : M string) : list cli_event :=
  match request with
  | (t, Ok response) =>
      (map Ev t ++ [print ("LLM Response: 
" ++ response ++ "

")])%list
  | (t, Raise e) =>
      (map Ev t ++ [print ("Error: " ++ str e)])%list
  end.

(** One pass of the body of [while True].  The menu [input] is outside
    the [try]; the two other [input]s are inside it, so that running out
    of input there is caught and printed.  [sys.exit(0)] raises
    [SystemExit], which [except Exception] does not catch. *)
Definition iteration (W : World) (stdin : list string) : list cli_event * step :=
  let menu :=
    [print "
Welcome to AI Agents Experiments!";
     print "1. YouTube Video Summarizer";
     print "2. Multi-Tool Assistant";
     print "3. Exit"] in
  let select := "
Select an option (1-3): " in
  match stdin with
  | [] => ((menu ++ [Input select None])%list, Stop (Uncaught EOFError))
  | choice :: stdin1 =>
      let asked := (menu ++ [Input select (Some choice)])%list in
      if String.eqb choice "1" then
        match stdin1 with
        | [] =>
            ((asked ++ [Input "Enter YouTube video URL: " None;
                        print ("Error: " ++ str EOFError)])%list,
             Continue [])
        | url :: stdin2 =>
            ((asked ++ Input "Enter YouTube video URL: " (Some url) ::
                respond (summarizer <- YouTubeSummarizer.__init__ ;;
                         YouTubeSummarizer.process_video W summarizer url)%M)%list,
             Continue stdin2)
        end
      else if String.eqb choice "2" then
        match stdin1 with
        | [] =>
            ((asked ++ [Input "Enter your question: " None;
                        print ("Error: " ++ str EOFError)])%list,
             Continue [])
        | question :: stdin2 =>
            ((asked ++ Input "Enter your question: " (Some question) ::
                respond (multi_tools <- MultiTools.__init__ W ;;
                         MultiTools.ask W multi_tools (Some question))%M)%list,
             Continue stdin2)
        end
      else if String.eqb choice "3" then
        ((asked ++ [print "Goodbye!"])%list, Stop (Exit 0))
      else
        ((asked ++ [print "Invalid choice"])%list, Continue stdin1)
  end.

(** [while True: ...], at most [fuel] passes; [None] when the passes run
    out.  A pass that goes round again has read a line, so one pass more
    than there are lines always ends (see [main_ends]). *)
Fixpoint loop (fuel : nat) (W : World) (stdin : list string) : list cli_event * option ending :=
  match fuel with
  | O => ([], None)
  | S fuel' =>
      match iteration W stdin with
      | (t, Stop e) => (t, Some e)
      | (t, Continue stdin') =>
          let '(t', e) := loop fuel' W stdin' in ((t ++ t')%list, e)
      end
  end.

(** [main()], given the value of [GROQ_API_KEY] once [load_dotenv] has
    run and the lines standard input holds. *)
Definition main (W : World) (groq_api_key : option string) (stdin : list string)
    : list cli_event * option ending :=
  if unset groq_api_key then
    ([print "Error: GROQ_API_KEY not found in environment variables"], Some (Exit 1))
  else
    loop (S (List.length stdin)) W stdin.

End Agents.

(* ===================================================================== *)
(** * Concrete worlds and expected renderings                             *)
(* ===================================================================== *)

Module Scenario.
Import Py Effects.

Definition abc_segments : list Segment :=
  [ {| text := "a"; start := 0; duration := 1 # 2 |};
    {| text := "b"; start := 1 # 2; duration := 1 |};
    {| text := "c"; start := 3 # 2; duration := 2 |} ].

Definition captions_disabled : foreign_exn :=
  {| exn_class := "TranscriptsDisabled";
     exn_text := "Subtitles are disabled for this video" |}.

Definition rate_limited : foreign_exn :=
  {| exn_class := "RateLimitError"; exn_text := "Error code: 429" |}.

Definition unknown_encoding : foreign_exn :=
  {| exn_class := "KeyError"; exn_text := "Could not automatically map model to a tokeniser" |}.

(** Every service answers. *)
Definition world_up : World :=
  {| YouTubeTranscriptApi_get_transcript := fun _ => inr abc_segments;
     tiktoken_encode := fun _ _ => inr [11%N; 22%N; 33%N];
     ChatGroq_init := fun _ => None;
     ChatGroq_invoke := fun _ _ => inr "It depends.";
     PythonREPL_run := fun code => code;
     WikipediaQueryRun_run := fun query => query |}.

(** The transcript and completion services fail. *)
Definition world_down : World :=
  {| YouTubeTranscriptApi_get_transcript := fun _ => inl captions_disabled;
     tiktoken_encode := fun _ _ => inr [11%N; 22%N; 33%N];
     ChatGroq_init := fun _ => None;
     ChatGroq_invoke := fun _ _ => inl rate_limited;
     PythonREPL_run := fun code => code;
     WikipediaQueryRun_run := fun query => query |}.

(** The tokenizer fails. *)
Definition world_no_tokenizer : World :=
  {| YouTubeTranscriptApi_get_transcript := fun _ => inr abc_segments;
     tiktoken_encode := fun _ _ => inl unknown_encoding;
     ChatGroq_init := fun _ => None;
     ChatGroq_invoke := fun _ _ => inr "It depends.";
     PythonREPL_run := fun code => code;
     WikipediaQueryRun_run := fun query => query |}.

(** The attributes [YouTubeSummarizer()] sets. *)
Definition summarizer : YouTubeSummarizer.self_t :=
  {| YouTubeSummarizer.model_name := "llama-3.2-3b-preview";
     YouTubeSummarizer.top_n_points := 5 |}.

(** The attributes [MultiToolsAgent()] sets. *)
Definition agent (W : World) : MultiTools.self_t :=
  MultiTools._initialize_tools W
    {| MultiTools.model_name := "llama-3.2-3b-preview";
       MultiTools.tools := [];
       MultiTools.tools_str := "";
       MultiTools.tool_names := [] |}.

(** The agent prompt with its three fields filled in. *)
Definition agent_prompt_text (tools tool_names question : string) : string :=
  "
        Answer the following questions as best you can. You have access to the following tools:

        " ++ tools ++ "

        Use the following format:

        Question: the input question you must answer
        Thought: you should always think about what to do
        Action: the action to take, should be one of " ++ tool_names ++ "
        Action Input: the input to the action
        Observation: the result of the action
        ... (this Thought/Action/Action Input/Observation can repeat N times)
        Thought: I now know the final answer
        Final Answer: the final answer to the original input question

        Begin!

        Question: " ++ question ++ "
        ".

(** The summary prompt with its two fields filled in. *)
Definition summary_prompt_text (transcript top_n : string) : string :=
  "
        Summarize the following YouTube video transcript:

        " ++ transcript ++ "

        Please provide:
        1. A brief overview of the video's main topic or theme
        2. Identify the speakers.
        3. The top " ++ top_n ++ " most important points or insights presented, with a short explanation for each
        4. Any notable quotes or statements made by the speaker(s)
        5. Key takeaways or conclusions from the video

        Your response should be well-structured and easy to read
        ".

End Scenario.

(* ===================================================================== *)
(** * Further concrete worlds                                             *)
(* ===================================================================== *)

Module Cases.
Import Py Effects Scenario.

(** The video has a caption track with nothing in it. *)
Definition world_silent : World :=
  {| YouTubeTranscriptApi_get_transcript := fun _ => inr [];
     tiktoken_encode := tiktoken_encode world_up;
     ChatGroq_init := ChatGroq_init world_up;
     ChatGroq_invoke := ChatGroq_invoke world_up;
     PythonREPL_run := PythonREPL_run world_up;
     WikipediaQueryRun_run := WikipediaQueryRun_run world_up |}.

(** What the client library raises when it finds no API key. *)
Definition no_api_key : foreign_exn :=
  {| exn_class := "GroqError";
     exn_text := "The api_key client option must be set either by passing api_key to the client or by setting the GROQ_API_KEY environment variable" |}.

(** No API key is configured: the model cannot be constructed. *)
Definition world_no_key : World :=
  {| YouTubeTranscriptApi_get_transcript := YouTubeTranscriptApi_get_transcript world_up;
     tiktoken_encode := tiktoken_encode world_up;
     ChatGroq_init := fun _ => Some no_api_key;
     ChatGroq_invoke := ChatGroq_invoke world_up;
     PythonREPL_run := PythonREPL_run world_up;
     WikipediaQueryRun_run := WikipediaQueryRun_run world_up |}.

End Cases.

(* ===================================================================== *)
(** * Facts about the string primitives                                   *)
(* ===================================================================== *)

Module PyFacts.
Import Py.

Lemma append_assoc (a b c : string) : (a ++ b) ++ c = a ++ (b ++ c).
Proof. induction a as [|x a IH]; simpl; [reflexivity | now rewrite IH]. Qed.

Lemma append_empty_r (a : string) : a ++ "" = a.
Proof. induction a as [|x a IH]; simpl; [reflexivity | now rewrite IH]. Qed.

Lemma length_append (a b : string) :
  String.length (a ++ b) = String.length a + String.length b.
Proof. induction a as [|x a IH]; simpl; [reflexivity | now rewrite IH]. Qed.

Lemma length_zero (a : string) : String.length a = 0 -> a = "".
Proof. destruct a; simpl; [reflexivity | discriminate]. Qed.

(** Two ways of cutting one string: the shorter prefix is a prefix of the
    longer one. *)
Lemma append_eq_append (a1 b1 a2 b2 : string) :
  a1 ++ b1 = a2 ++ b2 ->
  String.length a1 <= String.length a2 ->
  exists x, a2 = a1 ++ x /\ b1 = x ++ b2.
Proof.
  revert a2. induction a1 as [|c a1 IH]; intros a2 E L; simpl in *.
  - exists a2. split; [reflexivity | exact E].
  - destruct a2 as [|c2 a2]; simpl in *; [lia |].
    injection E as -> E.
    destruct (IH a2 E) as [x [-> ->]]; [lia |].
    exists x. split; reflexivity.
Qed.

Lemma append_same_length (a1 b1 a2 b2 : string) :
  a1 ++ b1 = a2 ++ b2 ->
  String.length a1 = String.length a2 ->
  a1 = a2 /\ b1 = b2.
Proof.
  intros E L.
  destruct (append_eq_append a1 b1 a2 b2 E) as [x [Ea Eb]]; [lia |].
  assert (x = "") as ->.
  { apply length_zero. rewrite Ea, length_append in L. lia. }
  rewrite append_empty_r in Ea. simpl in Eb. split; congruence.
Qed.

(** ** [startswith] and [drop] *)

Lemma startswith_append (p t : string) : startswith p (p ++ t) = true.
Proof.
  induction p as [|a p IH]; simpl; [reflexivity |].
  now rewrite Ascii.eqb_refl.
Qed.

Lemma startswith_drop (p s : string) :
  startswith p s = true -> s = p ++ drop (String.length p) s.
Proof.
  revert s. induction p as [|a p IH]; intros s H; simpl in *; [reflexivity |].
  destruct s as [|b s]; [discriminate |].
  destruct (Ascii.eqb_spec a b) as [->|]; [| discriminate].
  f_equal. now apply IH.
Qed.

Lemma startswith_iff (p s : string) :
  startswith p s = true <-> exists t, s = p ++ t.
Proof.
  split.
  - intros H. eexists. now apply startswith_drop.
  - intros [t ->]. apply startswith_append.
Qed.

Lemma startswith_empty (p : string) : startswith p "" = true -> p = "".
Proof. destruct p; simpl; [reflexivity | discriminate]. Qed.

(** ** [in] is substring occurrence *)

Lemma contains_cons (sub : string) (c : ascii) (s : string) :
  contains sub (String c s) <-> startswith sub (String c s) = true \/ contains sub s.
Proof.
  split.
  - intros [a [b E]]. destruct a as [|x a]; simpl in E.
    + left. apply startswith_iff. now exists b.
    + right. injection E as _ E. now exists a, b.
  - intros [H | [a [b E]]].
    + apply startswith_iff in H as [t E]. now exists "", t.
    + exists (String c a), b. simpl. now rewrite E.
Qed.

Lemma contains_empty (sub : string) : contains sub "" <-> sub = "".
Proof.
  split.
  - intros [a [b E]]. destruct a; [| discriminate].
    destruct sub; [reflexivity | discriminate].
  - intros ->. now exists "", "".
Qed.

Lemma py_in_contains (sub s : string) : py_in sub s = true <-> contains sub s.
Proof.
  induction s as [|c s IH]; simpl.
  - rewrite contains_empty. split.
    + apply startswith_empty.
    + now intros ->.
  - rewrite contains_cons, orb_true_iff, IH. reflexivity.
Qed.

Lemma py_in_not_contains (sub s : string) : py_in sub s = false <-> ~ contains sub s.
Proof.
  rewrite <- py_in_contains. destruct (py_in sub s); split; intros H;
    try reflexivity; try discriminate; tauto.
Qed.

(** ** [cut] finds the first occurrence *)

Lemma cut_first (sep s a b : string) :
  cut sep s = Some (a, b) -> first_cut sep s a b.
Proof.
  revert a b. induction s as [|c s IH]; intros a b H; simpl in H.
  - destruct (startswith sep "") eqn:P; [| discriminate].
    injection H as <- <-. apply startswith_empty in P as ->.
    split; [reflexivity | intros; simpl; lia].
  - destruct (startswith sep (String c s)) eqn:P.
    + injection H as <- <-. split; [| intros; simpl; lia].
      simpl. now apply startswith_drop.
    + destruct (cut sep s) as [[a0 b0]|] eqn:C; [| discriminate].
      injection H as <- <-.
      destruct (IH a0 b0 eq_refl) as [E Hmin].
      split; [simpl; now rewrite <- E |].
      intros a' b' E'. destruct a' as [|x a']; simpl in E'.
      * assert (startswith sep (String c s) = true) as Q
          by (apply startswith_iff; now exists b').
        congruence.
      * injection E' as _ E'. simpl. specialize (Hmin a' b' E'). lia.
Qed.

Lemma cut_none (sep s : string) : cut sep s = None -> ~ contains sep s.
Proof.
  induction s as [|c s IH]; intros H; simpl in H.
  - destruct (startswith sep "") eqn:P; [discriminate |].
    rewrite contains_empty. intros ->. discriminate.
  - destruct (startswith sep (String c s)) eqn:P; [discriminate |].
    destruct (cut sep s) as [[a0 b0]|] eqn:C; [discriminate |].
    rewrite contains_cons. intros [Q | Q]; [congruence | now apply IH].
Qed.

Lemma cut_some (sep s : string) :
  contains sep s -> exists a b, cut sep s = Some (a, b).
Proof.
  intros H. destruct (cut sep s) as [[a b]|] eqn:C.
  - now exists a, b.
  - now apply cut_none in C.
Qed.

Lemma first_cut_unique (sep s a b a' b' : string) :
  first_cut sep s a b -> first_cut sep s a' b' -> a = a' /\ b = b'.
Proof.
  intros [E M] [E' M'].
  assert (String.length a = String.length a') as L.
  { specialize (M a' b' E'). specialize (M' a b E). lia. }
  rewrite E in E'.
  destruct (append_same_length _ _ _ _ E' L) as [-> E2].
  split; [reflexivity |].
  destruct (append_same_length sep b sep b' E2 eq_refl) as [_ ->]. reflexivity.
Qed.

Lemma before_first_unique (sep s a a' : string) :
  before_first sep s a -> before_first sep s a' -> a = a'.
Proof.
  intros [[N ->] | [b F]] [[N' ->] | [b' F']].
  - reflexivity.
  - destruct F' as [E _]. exfalso. apply N. now exists a', b'.
  - destruct F as [E _]. exfalso. apply N'. now exists a, b.
  - now destruct (first_cut_unique _ _ _ _ _ _ F F').
Qed.

Lemma cut_before_first (sep s : string) :
  before_first sep s (match cut sep s with Some (a, _) => a | None => s end).
Proof.
  destruct (cut sep s) as [[a b]|] eqn:C.
  - right. exists b. now apply cut_first.
  - left. split; [now apply cut_none | reflexivity].
Qed.

(** ** [split] *)

Lemma cut_shorter (sep s a b : string) :
  sep <> "" -> cut sep s = Some (a, b) -> String.length b < String.length s.
Proof.
  intros N C. apply cut_first in C as [E _].
  rewrite E, !length_append. destruct sep; [contradiction | simpl; lia].
Qed.

(** More fuel than the length of the string changes nothing. *)
Lemma split_fuel_enough (sep : string) (n m : nat) (s : string) :
  sep <> "" -> String.length s <= n -> String.length s <= m ->
  split_fuel n sep s = split_fuel m sep s.
Proof.
  intros N. revert m s. induction n as [|n IH]; intros m s Ln Lm.
  - assert (s = "") as -> by (apply length_zero; lia).
    destruct m; simpl; [reflexivity |].
    destruct sep; [contradiction | reflexivity].
  - destruct m as [|m].
    + assert (s = "") as -> by (apply length_zero; lia).
      simpl. destruct sep; [contradiction | reflexivity].
    + simpl. destruct (cut sep s) as [[a b]|] eqn:C; [| reflexivity].
      pose proof (cut_shorter _ _ _ _ N C).
      f_equal. apply IH; lia.
Qed.

(** One step of [split], without fuel: the first piece is what precedes
    the first separator, the other pieces are the split of what follows. *)
Lemma split_unfold (s sep : string) :
  sep <> "" ->
  exists l, split s sep = Ok l /\
    match cut sep s with
    | None => l = [s]
    | Some (a, b) => exists l', split b sep = Ok l' /\ l = a :: l'
    end.
Proof.
  intros N. unfold split. destruct sep as [|c sep]; [contradiction |].
  eexists. split; [reflexivity |].
  destruct (cut (String c sep) s) as [[a b]|] eqn:C.
  - eexists. split; [reflexivity |].
    pose proof (cut_shorter _ _ _ _ N C) as L.
    destruct (String.length s) as [|n] eqn:Ls; [lia |].
    simpl. rewrite C. f_equal. apply split_fuel_enough; [assumption | lia | lia].
  - destruct (String.length s); simpl; [reflexivity | now rewrite C].
Qed.

Lemma split_total (s sep : string) :
  sep <> "" -> exists x l, split s sep = Ok (x :: l).
Proof.
  intros N. destruct (split_unfold s sep N) as [l [E H]].
  destruct (cut sep s) as [[a b]|].
  - destruct H as [l' [_ ->]]. now exists a, l'.
  - subst l. now exists s, [].
Qed.

(** ** List indexing *)

Lemma index_0 {A} (x : A) (l : list A) : index (x :: l) 0 = Ok x.
Proof.
  unfold index. cbn [List.length Z.ltb Z.compare].
  destruct (Z.leb_spec (Z.of_nat (S (List.length l))) 0); [lia | reflexivity].
Qed.

Lemma index_1 {A} (x y : A) (l : list A) : index (x :: y :: l) 1 = Ok y.
Proof.
  unfold index. cbn [List.length Z.ltb Z.compare].
  destruct (Z.leb_spec (Z.of_nat (S (S (List.length l)))) 1); [lia | reflexivity].
Qed.

Lemma index_1_singleton {A} (x : A) :
  index [x] 1 = Raise (IndexError "list index out of range").
Proof. reflexivity. Qed.

Lemma nth_error_last {A} (l : list A) (d : A) :
  l <> [] -> nth_error l (List.length l - 1) = Some (List.last l d).
Proof.
  induction l as [|x l IH]; intros N; [contradiction |].
  destruct l as [|y l]; [reflexivity |].
  specialize (IH ltac:(discriminate)).
  cbn [List.length Nat.sub] in IH. rewrite Nat.sub_0_r in IH.
  cbn [List.length Nat.sub nth_error]. rewrite IH. reflexivity.
Qed.

Lemma index_last {A} (l : list A) (d : A) :
  l <> [] -> index l (-1) = Ok (List.last l d).
Proof.
  intros N. unfold index. cbn [Z.ltb Z.compare].
  assert (0 < List.length l) as L by (destruct l; [contradiction | simpl; lia]).
  destruct (Z.ltb_spec (-1 + Z.of_nat (List.length l)) 0); [lia |].
  destruct (Z.leb_spec (Z.of_nat (List.length l)) (-1 + Z.of_nat (List.length l))); [lia |].
  cbn [orb].
  replace (Z.to_nat (-1 + Z.of_nat (List.length l))) with (List.length l - 1) by lia.
  now rewrite (nth_error_last l d N).
Qed.

(** ** First and last piece of a split *)

Lemma split_first (s sep : string) :
  sep <> "" ->
  exists l a, split s sep = Ok l /\ index l 0 = Ok a /\ before_first sep s a.
Proof.
  intros N. destruct (split_unfold s sep N) as [l [E H]].
  pose proof (cut_before_first sep s) as B.
  destruct (cut sep s) as [[a b]|].
  - destruct H as [l' [_ ->]]. exists (a :: l'), a.
    split; [assumption | split; [apply index_0 | assumption]].
  - subst l. exists [s], s.
    split; [assumption | split; [apply index_0 | assumption]].
Qed.

Lemma split_last (s sep : string) :
  sep <> "" ->
  exists l seg, split s sep = Ok l /\ index l (-1) = Ok seg /\ after_last sep s seg.
Proof.
  intros N.
  remember (String.length s) as n eqn:Ln.
  revert s Ln. induction n as [n IH] using lt_wf_ind. intros s Ln.
  destruct (split_unfold s sep N) as [l [E H]].
  destruct (cut sep s) as [[a b]|] eqn:C.
  - destruct H as [l' [E' ->]].
    pose proof (cut_shorter _ _ _ _ N C) as L.
    destruct (IH (String.length b) ltac:(lia) b eq_refl) as [l2 [seg [E2 [I [NC S]]]]].
    assert (l2 = l') as -> by congruence.
    assert (l' <> []) as NE by (intros ->; discriminate).
    exists (a :: l'), seg. split; [assumption |].
    rewrite (index_last l' seg NE) in I. injection I as I.
    split.
    + rewrite (index_last (a :: l') seg) by discriminate.
      f_equal. destruct l'; [contradiction | exact I].
    + split; [assumption |]. right.
      apply cut_first in C as [Es _].
      destruct S as [-> | [pre ->]].
      * now exists a.
      * exists (a ++ sep ++ pre). rewrite Es. now rewrite !append_assoc.
  - subst l. exists [s], s. split; [assumption |]. split; [reflexivity |].
    split; [now apply cut_none | now left].
Qed.

(** What follows the last occurrence of a one-character separator is
    determined by the string. *)
Lemma after_last_unique (c : ascii) (s seg seg' : string) :
  after_last (String c "") s seg -> after_last (String c "") s seg' -> seg = seg'.
Proof.
  assert (forall p1 g1 p2 g2 : string,
    p1 ++ String c "" ++ g1 = p2 ++ String c "" ++ g2 ->
    String.length p1 <= String.length p2 ->
    ~ contains (String c "") g1 -> g1 = g2) as K.
  { intros p1 g1 p2 g2 E L N1.
    destruct (append_eq_append _ _ _ _ E L) as [x [_ Ex]].
    destruct x as [|y x]; simpl in Ex.
    - now injection Ex.
    - injection Ex as _ Ex. exfalso. apply N1. now exists x, g2. }
  intros [N1 [E1 | [p1 E1]]] [N2 [E2 | [p2 E2]]].
  - congruence.
  - exfalso. apply N1. rewrite <- E1, E2. now exists p2, seg'.
  - exfalso. apply N2. rewrite <- E2, E1. now exists p1, seg.
  - rewrite E1 in E2.
    destruct (Nat.le_ge_cases (String.length p1) (String.length p2)).
    + now apply (K p1 seg p2 seg').
    + symmetry. now apply (K p2 seg' p1 seg).
Qed.

End PyFacts.

(* ===================================================================== *)
(** * The URL parser                                                      *)
(* ===================================================================== *)

Section UrlParser.
Import Py PyFacts YouTubeSummarizer.

Lemma sep_nonempty (c : ascii) (r : string) : String c r <> "".
Proof. discriminate. Qed.

(** The two examples of the specification. *)
Example get_video_id_short_example :
  get_video_id "https://youtu.be/abc123?t=5" = Ok "abc123".
Proof. reflexivity. Qed.

Example get_video_id_canonical_example :
  get_video_id "https://www.youtube.com/watch?v=XYZ&t=10" = Ok "XYZ".
Proof. reflexivity. Qed.

(** C4.  For every URL containing "youtu.be", [get_video_id] returns the
    segment [seg] after the last "/" of the URL (the whole URL when it has
    no "/"), cut before its first "?" (all of [seg] when it has none). *)
Theorem get_video_id_short_link (url : string) :
  contains "youtu.be" url ->
  exists seg id,
    after_last "/" url seg /\
    before_first "?" seg id /\
    get_video_id url = Ok id.
Proof.
  intros H. apply py_in_contains in H.
  unfold get_video_id. rewrite H.
  destruct (split_last url "/" (sep_nonempty _ _)) as [l [seg [E [I A]]]].
  destruct (split_first seg "?" (sep_nonempty _ _)) as [l2 [id [E2 [I2 B]]]].
  exists seg, id. split; [assumption |]. split; [assumption |].
  rewrite E. cbn [rbind]. rewrite I. cbn [rbind]. rewrite E2. cbn [rbind].
  exact I2.
Qed.

Lemma get_video_id_short_link_witness :
  contains "youtu.be" "https://youtu.be/abc123?t=5" /\
  exists seg id,
    after_last "/" "https://youtu.be/abc123?t=5" seg /\
    before_first "?" seg id /\
    get_video_id "https://youtu.be/abc123?t=5" = Ok id.
Proof.
  assert (contains "youtu.be" "https://youtu.be/abc123?t=5") as H
    by (apply py_in_contains; reflexivity).
  split; [exact H | exact (get_video_id_short_link _ H)].
Defined.

(** C8.  A URL containing neither "youtu.be" nor "youtube.com" makes
    [get_video_id] fail with the invalid-URL error. *)
Theorem get_video_id_invalid_url (url : string) :
  ~ contains "youtu.be" url ->
  ~ contains "youtube.com" url ->
  get_video_id url = Raise InvalidURL.
Proof.
  intros H1 H2. apply py_in_not_contains in H1, H2.
  unfold get_video_id. now rewrite H1, H2.
Qed.

Lemma get_video_id_invalid_url_witness :
  get_video_id "https://vimeo.com/76979871" = Raise InvalidURL.
Proof.
  apply (get_video_id_invalid_url "https://vimeo.com/76979871");
    apply py_in_not_contains; reflexivity.
Defined.

(** C9.  A URL that contains "youtube.com", not "youtu.be", and no "v="
    makes [get_video_id] fail with [IndexError], which is not the
    invalid-URL error: the split on "v=" has one element and element 1 is
    taken. *)
Theorem get_video_id_canonical_index_error (url : string) :
  ~ contains "youtu.be" url ->
  contains "youtube.com" url ->
  ~ contains "v=" url ->
  get_video_id url = Raise (IndexError "list index out of range") /\
  get_video_id url <> Raise InvalidURL.
Proof.
  intros H1 H2 H3.
  apply py_in_not_contains in H1. apply py_in_contains in H2.
  assert (get_video_id url = Raise (IndexError "list index out of range")) as E.
  { unfold get_video_id. rewrite H1, H2.
    destruct (split_unfold url "v=" (sep_nonempty _ _)) as [l [E C]].
    destruct (cut "v=" url) as [[a b]|] eqn:K.
    - apply cut_first in K as [K _]. exfalso. apply H3. now exists a, b.
    - subst l. rewrite E. reflexivity. }
  split; [exact E | rewrite E; discriminate].
Qed.

Lemma get_video_id_canonical_index_error_witness :
  get_video_id "https://www.youtube.com/feed" = Raise (IndexError "list index out of range") /\
  get_video_id "https://www.youtube.com/feed" <> Raise InvalidURL.
Proof.
  apply (get_video_id_canonical_index_error "https://www.youtube.com/feed").
  - apply py_in_not_contains; reflexivity.
  - apply py_in_contains; reflexivity.
  - apply py_in_not_contains; reflexivity.
Defined.

Lemma index_0_inv {A} (l : list A) (a : A) :
  index l 0 = Ok a -> exists r, l = a :: r.
Proof.
  destruct l as [|x l]; [discriminate |].
  rewrite index_0. intros E. injection E as ->. now exists l.
Qed.

(** C2, as worded, fails on the code in two ways.  With no "v=" in the
    URL nothing is returned; and the value is cut at a second "v=" even
    when no "&" precedes it: for ".../watch?v=abv=c" the text after the
    first "v=" up to the next "&" is "abv=c", the code returns "ab". *)
Lemma get_video_id_canonical_counterexample :
  (~ contains "youtu.be" "https://www.youtube.com/feed" /\
   contains "youtube.com" "https://www.youtube.com/feed" /\
   get_video_id "https://www.youtube.com/feed" = Raise (IndexError "list index out of range"))
  /\
  (~ contains "youtu.be" "https://www.youtube.com/watch?v=abv=c" /\
   contains "youtube.com" "https://www.youtube.com/watch?v=abv=c" /\
   first_cut "v=" "https://www.youtube.com/watch?v=abv=c"
             "https://www.youtube.com/watch?" "abv=c" /\
   before_first "&" "abv=c" "abv=c" /\
   get_video_id "https://www.youtube.com/watch?v=abv=c" = Ok "ab" /\
   "ab" <> "abv=c").
Proof.
  split.
  - split; [apply py_in_not_contains; reflexivity |].
    split; [apply py_in_contains; reflexivity | reflexivity].
  - split; [apply py_in_not_contains; reflexivity |].
    split; [apply py_in_contains; reflexivity |].
    split; [apply cut_first; reflexivity |].
    split; [left; split; [apply py_in_not_contains|]; reflexivity |].
    split; [reflexivity | discriminate].
Qed.

(** C2, amended.  For every URL that contains "youtube.com", not
    "youtu.be", and at least one "v=", [get_video_id] returns the text
    after the first "v=", cut before the next "v=" if there is one, and
    then cut before its first "&" if there is one: the text after the
    first "v=" up to the next "&" or "v=", whichever comes first, or to
    the end of the string. *)
Theorem get_video_id_canonical (url : string) :
  ~ contains "youtu.be" url ->
  contains "youtube.com" url ->
  contains "v=" url ->
  exists pre tail value id,
    first_cut "v=" url pre tail /\
    before_first "v=" tail value /\
    before_first "&" value id /\
    get_video_id url = Ok id.
Proof.
  intros H1 H2 H3.
  apply py_in_not_contains in H1. apply py_in_contains in H2.
  destruct (cut_some _ _ H3) as [pre [tail K]].
  destruct (split_unfold url "v=" (sep_nonempty _ _)) as [l [E C]].
  rewrite K in C. destruct C as [l' [E' ->]].
  destruct (split_first tail "v=" (sep_nonempty _ _)) as [l2 [value [E2 [I2 B2]]]].
  assert (l2 = l') as -> by congruence.
  destruct (index_0_inv _ _ I2) as [r ->].
  destruct (split_first value "&" (sep_nonempty _ _)) as [l3 [id [E3 [I3 B3]]]].
  exists pre, tail, value, id.
  split; [now apply cut_first |]. split; [assumption |]. split; [assumption |].
  unfold get_video_id. rewrite H1, H2, E. cbn [rbind].
  rewrite index_1. cbn [rbind]. rewrite E3. cbn [rbind]. exact I3.
Qed.

Lemma get_video_id_canonical_witness :
  exists pre tail value id,
    first_cut "v=" "https://www.youtube.com/watch?v=XYZ&t=10" pre tail /\
    before_first "v=" tail value /\
    before_first "&" value id /\
    get_video_id "https://www.youtube.com/watch?v=XYZ&t=10" = Ok id.
Proof.
  apply (get_video_id_canonical "https://www.youtube.com/watch?v=XYZ&t=10").
  - apply py_in_not_contains; reflexivity.
  - apply py_in_contains; reflexivity.
  - apply py_in_contains; reflexivity.
Defined.

(** C3, as worded, fails: a recognized URL can yield the empty string. *)
Lemma get_video_id_empty_identifier :
  contains "youtu.be" "https://youtu.be/" /\
  get_video_id "https://youtu.be/" = Ok "".
Proof.
  split; [apply py_in_contains; reflexivity | reflexivity].
Qed.

(** C3, amended.  Whenever [get_video_id] returns, the URL contains one
    of the two markers "youtu.be" and "youtube.com"; on a URL with
    neither it fails with the invalid-URL error.  Nothing is promised
    about the returned string being non-empty. *)
Theorem get_video_id_recognized_shape (url : string) :
  (forall id, get_video_id url = Ok id ->
     contains "youtu.be" url \/ contains "youtube.com" url) /\
  (~ (contains "youtu.be" url \/ contains "youtube.com" url) ->
     get_video_id url = Raise InvalidURL).
Proof.
  unfold get_video_id.
  destruct (py_in "youtu.be" url) eqn:H1.
  - apply py_in_contains in H1. split; [now left | tauto].
  - destruct (py_in "youtube.com" url) eqn:H2.
    + apply py_in_contains in H2. split; [now right | tauto].
    + split; [discriminate | reflexivity].
Qed.

Lemma get_video_id_recognized_shape_witness :
  (contains "youtu.be" "https://youtu.be/abc123?t=5" \/
   contains "youtube.com" "https://youtu.be/abc123?t=5") /\
  get_video_id "ftp://example.org/clip" = Raise InvalidURL.
Proof.
  split.
  - exact (proj1 (get_video_id_recognized_shape "https://youtu.be/abc123?t=5")
             "abc123" eq_refl).
  - apply (proj2 (get_video_id_recognized_shape "ftp://example.org/clip")).
    intros [H | H]; apply py_in_contains in H; discriminate.
Defined.

End UrlParser.

(* ===================================================================== *)
(** * The transcript fetcher                                              *)
(* ===================================================================== *)

Section TranscriptFetcher.
Import Py PyFacts Effects YouTubeSummarizer.

Lemma py_not_true (s : string) : py_not s = true <-> s = "".
Proof. destruct s; simpl; split; intros; try reflexivity; discriminate. Qed.

Lemma py_not_false (s : string) : py_not s = false <-> s <> "".
Proof.
  destruct s; simpl; split; intros H; try reflexivity; try discriminate.
  now contradiction H.
Qed.

(** [get_transcript] on a non-empty identifier, by the answer of the service. *)
Lemma get_transcript_run (W : World) (video_id : string) :
  video_id <> "" ->
  get_transcript W video_id =
    ([TranscriptCall video_id],
     match YouTubeTranscriptApi_get_transcript W video_id with
     | inr segments => Ok (join " " (map text segments))
     | inl cause => Raise (TranscriptUnavailable (Foreign cause))
     end).
Proof.
  intros N. apply py_not_false in N. unfold get_transcript. rewrite N.
  destruct (YouTubeTranscriptApi_get_transcript W video_id); reflexivity.
Qed.

(** C5.  [get_transcript] fails with the missing-argument error exactly
    when the identifier is empty, and then calls nothing.  Otherwise the
    transcript service is called once, and when that call fails the
    result is the transcript-unavailable error built from the cause; the
    trace still has the one call. *)
Theorem get_transcript_errors (W : World) (video_id : string) :
  (outcome (get_transcript W video_id) = Raise MissingArgument_video_id <-> video_id = "") /\
  (video_id = "" -> trace (get_transcript W video_id) = []) /\
  (video_id <> "" ->
     trace (get_transcript W video_id) = [TranscriptCall video_id] /\
     forall cause,
       YouTubeTranscriptApi_get_transcript W video_id = inl cause ->
       outcome (get_transcript W video_id) = Raise (TranscriptUnavailable (Foreign cause))).
Proof.
  destruct video_id as [|c v].
  - split; [split; reflexivity |]. split; [reflexivity | intros N; now contradiction N].
  - rewrite (get_transcript_run W (String c v)) by discriminate.
    split; [| split].
    + split; [| discriminate]. cbn [outcome snd].
      destruct (YouTubeTranscriptApi_get_transcript W (String c v)); discriminate.
    + discriminate.
    + intros _. split; [reflexivity |].
      intros cause E. cbn [outcome snd]. now rewrite E.
Qed.

Lemma get_transcript_errors_witness :
  trace (get_transcript Scenario.world_down "dQw4w9WgXcQ") = [TranscriptCall "dQw4w9WgXcQ"] /\
  outcome (get_transcript Scenario.world_down "dQw4w9WgXcQ") =
    Raise (Exception "Failed to retrieve transcript: Subtitles are disabled for this video").
Proof.
  destruct (get_transcript_errors Scenario.world_down "dQw4w9WgXcQ") as [_ [_ H]].
  destruct (H ltac:(discriminate)) as [T F].
  split; [exact T | exact (F Scenario.captions_disabled eq_refl)].
Defined.

(** ** The join *)

Lemma join_cons (sep x y : string) (l : list string) :
  join sep (x :: y :: l) = x ++ sep ++ join sep (y :: l).
Proof. reflexivity. Qed.

(** Nothing is added but the separators and nothing is dropped. *)
Lemma join_length (sep : string) (l : list string) :
  String.length (join sep l) =
    list_sum (map String.length l) + String.length sep * (List.length l - 1).
Proof.
  induction l as [|x l IH]; [simpl; lia |].
  destruct l as [|y l]; [simpl; lia |].
  rewrite join_cons, !length_append, IH.
  cbn [map list_sum List.length Nat.sub]. rewrite Nat.sub_0_r, Nat.mul_succ_r.
  unfold list_sum. cbn [fold_right]. lia.
Qed.

Lemma cut_char_append (c : ascii) (x r : string) :
  ~ contains (String c "") x ->
  cut (String c "") (x ++ String c "" ++ r) = Some (x, r).
Proof.
  intros N.
  destruct (cut_some (String c "") (x ++ String c "" ++ r)) as [a [b C]];
    [now exists x, r |].
  rewrite C. f_equal.
  pose proof (cut_first _ _ _ _ C) as F.
  assert (first_cut (String c "") (x ++ String c "" ++ r) x r) as F'.
  { split; [reflexivity |]. intros a' b' E.
    destruct (Nat.le_gt_cases (String.length x) (String.length a')) as [L | L]; [exact L |].
    symmetry in E.
    destruct (append_eq_append _ _ _ _ E) as [y [Ex Ey]]; [lia |].
    destruct y as [|d y].
    - rewrite Ex, append_empty_r in L. lia.
    - simpl in Ey. injection Ey as <- _. exfalso. apply N.
      exists a', y. exact Ex. }
  destruct (first_cut_unique _ _ _ _ _ _ F F') as [-> ->]. reflexivity.
Qed.

(** Splitting a joined text at the separator gives the pieces back, in
    order and with repetitions, when no piece contains the separator. *)
Lemma split_join (c : ascii) (l : list string) :
  l <> [] ->
  Forall (fun t => ~ contains (String c "") t) l ->
  split (join (String c "") l) (String c "") = Ok l.
Proof.
  intros NE F. induction F as [|x l Hx F IH]; [contradiction |].
  destruct l as [|y l].
  - destruct (split_unfold x (String c "") (sep_nonempty _ _)) as [k [E C]].
    destruct (cut (String c "") x) as [[a b]|] eqn:K.
    + apply cut_first in K as [K _]. exfalso. apply Hx. now exists a, b.
    + subst k. exact E.
  - rewrite join_cons.
    destruct (split_unfold (x ++ String c "" ++ join (String c "") (y :: l))
                (String c "") (sep_nonempty _ _)) as [k [E C]].
    rewrite (cut_char_append c x _ Hx) in C. destruct C as [k' [E' ->]].
    rewrite IH in E' by discriminate. injection E' as <-. exact E.
Qed.

(** The example of the specification, and one with a repeated caption. *)
Example get_transcript_abc :
  get_transcript Scenario.world_up "dQw4w9WgXcQ" = ([TranscriptCall "dQw4w9WgXcQ"], Ok "a b c").
Proof. reflexivity. Qed.

Example join_keeps_repetitions : join " " ["la"; "la"; "la  la"] = "la la la  la".
Proof. reflexivity. Qed.

(** C6.  When the transcript service delivers [segments] for a non-empty
    identifier, [get_transcript] returns their texts in delivery order
    with one space between consecutive texts: the empty string for no
    segment, and [t ++ " " ++ rest] for a first text [t] followed by
    others, so that no text is dropped, merged or changed (segments "a",
    "b", "c" give "a b c").  The service is called once. *)
Theorem get_transcript_joins (W : World) (video_id : string) (segments : list Segment) :
  video_id <> "" ->
  YouTubeTranscriptApi_get_transcript W video_id = inr segments ->
  exists full_transcript,
    get_transcript W video_id = ([TranscriptCall video_id], Ok full_transcript) /\
    full_transcript = join " " (map text segments) /\
    match segments with
    | [] => full_transcript = ""
    | [s] => full_transcript = text s
    | s :: rest => full_transcript = text s ++ " " ++ join " " (map text rest)
    end /\
    String.length full_transcript =
      list_sum (map (fun s => String.length (text s)) segments) + (List.length segments - 1).
Proof.
  intros N E. eexists. split; [| split; [reflexivity | split]].
  - rewrite (get_transcript_run W video_id N), E. reflexivity.
  - destruct segments as [|s [|s' rest]]; reflexivity.
  - rewrite join_length, map_map, length_map. simpl String.length. lia.
Qed.

Lemma get_transcript_joins_witness :
  exists full_transcript,
    get_transcript Scenario.world_up "dQw4w9WgXcQ" =
      ([TranscriptCall "dQw4w9WgXcQ"], Ok full_transcript) /\
    full_transcript = "a b c" /\
    full_transcript = "a" ++ " " ++ "b c" /\
    String.length full_transcript = 5.
Proof.
  exact (get_transcript_joins Scenario.world_up "dQw4w9WgXcQ" Scenario.abc_segments
           ltac:(discriminate) eq_refl).
Defined.

End TranscriptFetcher.

(* ===================================================================== *)
(** * Prompt rendering and the two pipelines                              *)
(* ===================================================================== *)

Section Pipelines.
Import Py PyFacts Effects Langchain Prompts Scenario.

(** Both templates render, whatever the field values are. *)
Lemma format_agent_prompt (tools tool_names question : string) :
  format MultiTools._create_prompt
    [("tools", tools); ("tool_names", tool_names); ("question", question)]
  = Ok (agent_prompt_text tools tool_names question).
Proof. reflexivity. Qed.

Lemma format_agent_prompt_chain (tools tool_names question : string) :
  format MultiTools._create_prompt
    [("question", question); ("tools", tools); ("tool_names", tool_names)]
  = Ok (agent_prompt_text tools tool_names question).
Proof. reflexivity. Qed.

Lemma format_summary_prompt (transcript top_n : string) :
  format YouTubeSummarizer.create_prompt
    [("YouTube_Transcript", transcript); ("top_n", top_n)]
  = Ok (summary_prompt_text transcript top_n).
Proof. reflexivity. Qed.

(** What [analyze_prompt] does, by the answer of the tokenizer. *)
Lemma analyze_prompt_run (W : World) (prompt_text : string) :
  analyze_prompt W prompt_text =
    match tiktoken_encode W "gpt-4o-mini" prompt_text with
    | inl e => ([TiktokenEncode "gpt-4o-mini" prompt_text], Raise (Foreign e))
    | inr tokens =>
        ([TiktokenEncode "gpt-4o-mini" prompt_text;
          Stdout ("Prompt Text: " ++ prompt_text);
          Stdout ("Prompt Input Tokens: " ++ str_of_nat (List.length tokens))],
         Ok tt)
    end.
Proof.
  unfold analyze_prompt, count_tokens, call.
  destruct (tiktoken_encode W "gpt-4o-mini" prompt_text); reflexivity.
Qed.

(** [ask] on a present question, by the answers of the tokenizer, of the
    model constructor and of the completion service. *)
Lemma ask_run (W : World) (self : MultiTools.self_t) (q : string) :
  let prompt :=
    agent_prompt_text (MultiTools.tools_str self)
      (str_of_list (MultiTools.tool_names self)) q in
  let llm := ChatGroq_stored (MultiTools.ask_model self) in
  MultiTools.ask W self (Some q) =
    match tiktoken_encode W "gpt-4o-mini" prompt with
    | inl e => ([TiktokenEncode "gpt-4o-mini" prompt], Raise (Foreign e))
    | inr tokens =>
        match ChatGroq_init W (MultiTools.ask_model self) with
        | Some e =>
            ([TiktokenEncode "gpt-4o-mini" prompt;
              Stdout ("Prompt Text: " ++ prompt);
              Stdout ("Prompt Input Tokens: " ++ str_of_nat (List.length tokens))],
             Raise (Foreign e))
        | None =>
            ([TiktokenEncode "gpt-4o-mini" prompt;
              Stdout ("Prompt Text: " ++ prompt);
              Stdout ("Prompt Input Tokens: " ++ str_of_nat (List.length tokens));
              CompletionCall llm prompt],
             match ChatGroq_invoke W llm prompt with
             | inr answer => Ok answer
             | inl e => Raise (Exception ("Error processing question: " ++ exn_text e))
             end)
        end
    end.
Proof.
  intros prompt llm.
  unfold MultiTools.ask, MultiTools._analyze_prompt_tokens, chain_invoke, ChatGroq_new.
  rewrite format_agent_prompt, format_agent_prompt_chain.
  fold prompt. unfold lift. cbn [bind app].
  rewrite analyze_prompt_run.
  destruct (tiktoken_encode W "gpt-4o-mini" prompt); [reflexivity |].
  destruct (ChatGroq_init W (MultiTools.ask_model self)); [reflexivity |].
  fold llm. unfold call, ret, bind, try_except. cbn [app].
  destruct (ChatGroq_invoke W llm prompt); reflexivity.
Qed.

(** The model [summarize] asks for is stored as it is given. *)
Lemma summarize_model_stored (self : YouTubeSummarizer.self_t) :
  ChatGroq_stored (YouTubeSummarizer.summarize_model self) =
    YouTubeSummarizer.summarize_model self.
Proof. reflexivity. Qed.

(** [summarize] on a non-empty transcript, in the same way. *)
Lemma summarize_run (W : World) (self : YouTubeSummarizer.self_t) (transcript : string) :
  transcript <> "" ->
  let prompt :=
    summary_prompt_text transcript (str_of_nat (YouTubeSummarizer.top_n_points self)) in
  let llm := YouTubeSummarizer.summarize_model self in
  YouTubeSummarizer.summarize W self transcript =
    match tiktoken_encode W "gpt-4o-mini" prompt with
    | inl e => ([TiktokenEncode "gpt-4o-mini" prompt], Raise (Foreign e))
    | inr tokens =>
        match ChatGroq_init W llm with
        | Some e =>
            ([TiktokenEncode "gpt-4o-mini" prompt;
              Stdout ("Prompt Text: " ++ prompt);
              Stdout ("Prompt Input Tokens: " ++ str_of_nat (List.length tokens))],
             Raise (Foreign e))
        | None =>
            ([TiktokenEncode "gpt-4o-mini" prompt;
              Stdout ("Prompt Text: " ++ prompt);
              Stdout ("Prompt Input Tokens: " ++ str_of_nat (List.length tokens));
              CompletionCall llm prompt],
             match ChatGroq_invoke W llm prompt with
             | inr summary => Ok summary
             | inl e => Raise (Exception ("AI summarization failed: " ++ exn_text e))
             end)
        end
    end.
Proof.
  intros N prompt llm. apply py_not_false in N.
  unfold YouTubeSummarizer.summarize, YouTubeSummarizer.get_prompt_tokens, chain_invoke,
    ChatGroq_new.
  rewrite N, format_summary_prompt, summarize_model_stored.
  fold prompt. fold llm. unfold lift. cbn [bind app].
  rewrite analyze_prompt_run.
  destruct (tiktoken_encode W "gpt-4o-mini" prompt); [reflexivity |].
  destruct (ChatGroq_init W llm); [reflexivity |].
  unfold call, ret, bind, try_except. cbn [app].
  destruct (ChatGroq_invoke W llm prompt); reflexivity.
Qed.

(** The constructors build the attribute records used in the examples. *)
Lemma summarizer_init :
  YouTubeSummarizer.__init__ =
    ([Stdout "Using AI Model: llama-3.2-3b-preview
"], Ok summarizer).
Proof. reflexivity. Qed.

Lemma agent_init (W : World) :
  MultiTools.__init__ W =
    ([Stdout "Using AI Model: llama-3.2-3b-preview
"], Ok (agent W)).
Proof. reflexivity. Qed.

Lemma agent_tools_str (W : World) :
  MultiTools.tools_str (agent W) =
    "python repl: Useful for executing Python code to answer computational questions
wikipedia: Useful for looking up factual information about topics, countries or people
" /\
  str_of_list (MultiTools.tool_names (agent W)) = "['python repl', 'wikipedia']".
Proof. split; reflexivity. Qed.

(** C7.  [ask(None)] fails with the missing-argument error and its trace
    is empty: nothing is printed, the tokenizer is not called and the
    completion service is not called. *)
Theorem ask_none_calls_nothing (W : World) (self : MultiTools.self_t) :
  outcome (MultiTools.ask W self None) = Raise MultiTools.MissingArgument_question /\
  trace (MultiTools.ask W self None) = [] /\
  completion_calls (trace (MultiTools.ask W self None)) = [].
Proof. repeat split. Qed.

(** C10, as worded, fails.  The token diagnostic and the model
    constructor both sit before the [try]: when the tokenizer raises, or
    when the constructor raises (no API key), [ask("")] raises that
    exception and the completion service is not invoked. *)
Lemma ask_empty_question_counterexample :
  (outcome (MultiTools.ask world_no_tokenizer (agent world_no_tokenizer) (Some "")) =
     Raise (Foreign unknown_encoding) /\
   completion_calls
     (trace (MultiTools.ask world_no_tokenizer (agent world_no_tokenizer) (Some ""))) = []) /\
  (outcome (MultiTools.ask Cases.world_no_key (agent Cases.world_no_key) (Some "")) =
     Raise (Foreign Cases.no_api_key) /\
   completion_calls
     (trace (MultiTools.ask Cases.world_no_key (agent Cases.world_no_key) (Some ""))) = []).
Proof. repeat split. Qed.

(** C10, amended.  [ask("")] does not fail with the missing-argument
    error, and [None] is the only question that does.  For the empty
    question the agent prompt is rendered with an empty question field
    and handed to the token diagnostic.  When the diagnostic returns and
    the model is constructed, the completion service is invoked once,
    with that prompt.  When the diagnostic raises, or the constructor
    raises after it, that exception is what [ask] raises and no
    completion call is made. *)
Theorem ask_empty_question_proceeds (W : World) (self : MultiTools.self_t) :
  let prompt :=
    agent_prompt_text (MultiTools.tools_str self)
      (str_of_list (MultiTools.tool_names self)) "" in
  let run := MultiTools.ask W self (Some "") in
  outcome run <> Raise MultiTools.MissingArgument_question /\
  (forall question,
     outcome (MultiTools.ask W self question) = Raise MultiTools.MissingArgument_question
     <-> question = None) /\
  (exists rest, trace run = TiktokenEncode "gpt-4o-mini" prompt :: rest) /\
  match tiktoken_encode W "gpt-4o-mini" prompt, ChatGroq_init W (MultiTools.ask_model self) with
  | inr _, None =>
      completion_calls (trace run) = [(ChatGroq_stored (MultiTools.ask_model self), prompt)]
  | inl e, _ =>
      run = ([TiktokenEncode "gpt-4o-mini" prompt], Raise (Foreign e))
  | inr _, Some e =>
      outcome run = Raise (Foreign e) /\ completion_calls (trace run) = []
  end.
Proof.
  intros prompt run. subst run.
  assert (forall q, outcome (MultiTools.ask W self (Some q))
                    <> Raise MultiTools.MissingArgument_question) as NS.
  { intros q. rewrite ask_run.
    destruct (tiktoken_encode W "gpt-4o-mini" _); [discriminate |].
    destruct (ChatGroq_init W (MultiTools.ask_model self)); [discriminate |].
    cbn [outcome snd].
    destruct (ChatGroq_invoke W _ _); discriminate. }
  split; [apply NS |]. split; [| split].
  - intros [q|]; split; intros H; try reflexivity; try discriminate.
    now apply NS in H.
  - rewrite ask_run. fold prompt.
    destruct (tiktoken_encode W "gpt-4o-mini" prompt); [eexists; reflexivity |].
    destruct (ChatGroq_init W (MultiTools.ask_model self)); eexists; reflexivity.
  - rewrite ask_run. fold prompt.
    destruct (tiktoken_encode W "gpt-4o-mini" prompt); [reflexivity |].
    destruct (ChatGroq_init W (MultiTools.ask_model self)); [split |]; reflexivity.
Qed.

Lemma ask_empty_question_proceeds_witness :
  outcome (MultiTools.ask world_up (agent world_up) (Some "")) = Ok "It depends." /\
  completion_calls (trace (MultiTools.ask world_up (agent world_up) (Some ""))) =
    [(ChatGroq_stored (MultiTools.ask_model (agent world_up)),
      agent_prompt_text
        (MultiTools.tools_str (agent world_up))
        "['python repl', 'wikipedia']" "")].
Proof.
  split; [reflexivity |].
  exact (proj2 (proj2 (proj2 (ask_empty_question_proceeds world_up (agent world_up))))).
Defined.

(** C1, as worded, fails: [summarize] configures the model with
    temperature 0.5, not 0. *)
Lemma summarize_temperature_counterexample :
  exists llm prompt,
    completion_calls (trace (YouTubeSummarizer.summarize world_up summarizer "a b c")) =
      [(llm, prompt)] /\
    temperature llm = (1 # 2)%Q /\
    ~ (temperature llm == 0)%Q.
Proof.
  eexists. eexists. split; [reflexivity |]. split; [reflexivity | discriminate].
Qed.

(** C1, amended.  The model of every completion call made by [ask] is
    the one constructed from the instance's model name, temperature 0, no
    output limit, no timeout and 2 retries; the constructed model holds,
    and sends, that temperature as 1e-08.  The model of every completion
    call made by [summarize] is the one constructed from temperature 0.5
    and the same other settings, and holds them unchanged.  A request
    that passes its argument check, whose token diagnostic returns and
    whose model is constructed makes exactly one completion call; a
    request whose model construction raises makes none. *)
Theorem completion_options (W : World) :
  (forall self question llm prompt,
     In (llm, prompt) (completion_calls (trace (MultiTools.ask W self question))) ->
     exists kwargs,
       (model kwargs = MultiTools.model_name self /\ temperature kwargs = 0%Q /\
        max_tokens kwargs = None /\ timeout kwargs = None /\ max_retries kwargs = 2) /\
       ChatGroq_new W kwargs = ([], Ok llm) /\
       (model llm = MultiTools.model_name self /\
        temperature llm = (1 # 100000000)%Q /\
        max_tokens llm = None /\ timeout llm = None /\ max_retries llm = 2)) /\
  (forall self transcript llm prompt,
     In (llm, prompt) (completion_calls (trace (YouTubeSummarizer.summarize W self transcript))) ->
     exists kwargs,
       (model kwargs = YouTubeSummarizer.model_name self /\ temperature kwargs = (1 # 2)%Q /\
        max_tokens kwargs = None /\ timeout kwargs = None /\ max_retries kwargs = 2) /\
       ChatGroq_new W kwargs = ([], Ok llm) /\
       llm = kwargs) /\
  (forall self q prompt tokens,
     prompt = agent_prompt_text (MultiTools.tools_str self)
                (str_of_list (MultiTools.tool_names self)) q ->
     tiktoken_encode W "gpt-4o-mini" prompt = inr tokens ->
     ChatGroq_init W {| model := MultiTools.model_name self; temperature := 0;
                        max_tokens := None; timeout := None; max_retries := 2 |} = None ->
     exists llm,
       completion_calls (trace (MultiTools.ask W self (Some q))) = [(llm, prompt)]) /\
  (forall self transcript prompt tokens,
     transcript <> "" ->
     prompt = summary_prompt_text transcript
                (str_of_nat (YouTubeSummarizer.top_n_points self)) ->
     tiktoken_encode W "gpt-4o-mini" prompt = inr tokens ->
     ChatGroq_init W {| model := YouTubeSummarizer.model_name self; temperature := 1 # 2;
                        max_tokens := None; timeout := None; max_retries := 2 |} = None ->
     exists llm,
       completion_calls (trace (YouTubeSummarizer.summarize W self transcript)) =
         [(llm, prompt)]) /\
  (forall self question e,
     ChatGroq_init W {| model := MultiTools.model_name self; temperature := 0;
                        max_tokens := None; timeout := None; max_retries := 2 |} = Some e ->
     completion_calls (trace (MultiTools.ask W self question)) = []) /\
  (forall self transcript e,
     ChatGroq_init W {| model := YouTubeSummarizer.model_name self; temperature := 1 # 2;
                        max_tokens := None; timeout := None; max_retries := 2 |} = Some e ->
     completion_calls (trace (YouTubeSummarizer.summarize W self transcript)) = []).
Proof.
  split; [| split; [| split; [| split; [| split]]]].
  - intros self [q|] llm prompt H; [| contradiction].
    rewrite ask_run in H.
    destruct (tiktoken_encode W "gpt-4o-mini" _); [contradiction |].
    destruct (ChatGroq_init W (MultiTools.ask_model self)) eqn:I; [contradiction |].
    destruct H as [H | []]. injection H as <- _.
    exists (MultiTools.ask_model self).
    split; [repeat split |]. split; [| repeat split].
    unfold ChatGroq_new. now rewrite I.
  - intros self transcript llm prompt H.
    destruct transcript as [|c t]; [contradiction |].
    rewrite summarize_run in H by discriminate.
    destruct (tiktoken_encode W "gpt-4o-mini" _); [contradiction |].
    destruct (ChatGroq_init W (YouTubeSummarizer.summarize_model self)) eqn:I;
      [contradiction |].
    destruct H as [H | []]. injection H as <- _.
    exists (YouTubeSummarizer.summarize_model self).
    split; [repeat split |]. split; [| reflexivity].
    unfold ChatGroq_new. now rewrite I.
  - intros self q prompt tokens -> E I. rewrite ask_run, E.
    change (ChatGroq_init W (MultiTools.ask_model self) = None) in I. rewrite I.
    eexists. reflexivity.
  - intros self transcript prompt tokens N -> E I.
    rewrite (summarize_run W self transcript N), E.
    change (ChatGroq_init W (YouTubeSummarizer.summarize_model self) = None) in I.
    rewrite I. eexists. reflexivity.
  - intros self [q|] e I; [| reflexivity].
    rewrite ask_run.
    change (ChatGroq_init W (MultiTools.ask_model self) = Some e) in I. rewrite I.
    destruct (tiktoken_encode W "gpt-4o-mini" _); reflexivity.
  - intros self [|c t] e I; [reflexivity |].
    rewrite summarize_run by discriminate.
    change (ChatGroq_init W (YouTubeSummarizer.summarize_model self) = Some e) in I.
    rewrite I.
    destruct (tiktoken_encode W "gpt-4o-mini" _); reflexivity.
Qed.

Lemma completion_options_witness :
  (exists llm,
     completion_calls (trace (MultiTools.ask world_up (agent world_up) (Some "Who wrote Dune?"))) =
       [(llm, agent_prompt_text (MultiTools.tools_str (agent world_up))
                "['python repl', 'wikipedia']" "Who wrote Dune?")]) /\
  (exists kwargs,
     temperature kwargs = 0%Q /\
     temperature (ChatGroq_stored (MultiTools.ask_model (agent world_up)))
       = (1 # 100000000)%Q) /\
  (exists kwargs,
     temperature kwargs = (1 # 2)%Q /\
     YouTubeSummarizer.summarize_model summarizer = kwargs) /\
  completion_calls
    (trace (MultiTools.ask Cases.world_no_key (agent Cases.world_no_key)
              (Some "Who wrote Dune?"))) = [].
Proof.
  destruct (completion_options world_up) as [A [S [A1 _]]].
  destruct (completion_options Cases.world_no_key) as [_ [_ [_ [_ [A2 _]]]]].
  split; [| split; [| split]].
  - exact (A1 (agent world_up) "Who wrote Dune?" _ [11%N; 22%N; 33%N]
             eq_refl eq_refl eq_refl).
  - destruct (A (agent world_up) (Some "Who wrote Dune?") _ _ (or_introl eq_refl))
      as [kwargs [[_ [T _]] [_ [_ [T' _]]]]].
    exists kwargs. split; [exact T | exact T'].
  - destruct (S summarizer "a b c" _ _ (or_introl eq_refl))
      as [kwargs [[_ [T _]] [_ E]]].
    exists kwargs. split; [exact T | exact E].
  - exact (A2 (agent Cases.world_no_key) (Some "Who wrote Dune?") Cases.no_api_key eq_refl).
Defined.

End Pipelines.

(* ===================================================================== *)
(** * The summarizer pipeline                                             *)
(* ===================================================================== *)

Section SummarizerPipeline.
Import Py PyFacts Effects YouTubeSummarizer.

(** A URL the parser rejects stops the pipeline before any service is
    called. *)
Lemma process_video_stops_at_parse (W : World) (self : self_t) (url : string) (e : exn) :
  get_video_id url = Raise e ->
  process_video W self url = ([], Raise e).
Proof. intros E. unfold process_video. now rewrite E. Qed.

(** A transcript failure stops the pipeline before the tokenizer and the
    completion service are called. *)
Lemma process_video_stops_at_fetch (W : World) (self : self_t) (url video_id : string)
    (cause : foreign_exn) :
  get_video_id url = Ok video_id ->
  video_id <> "" ->
  YouTubeTranscriptApi_get_transcript W video_id = inl cause ->
  process_video W self url =
    ([TranscriptCall video_id], Raise (TranscriptUnavailable (Foreign cause))).
Proof.
  intros E N F. unfold process_video. rewrite E. unfold lift. cbn [bind].
  rewrite (get_transcript_run W video_id N), F. reflexivity.
Qed.

Example process_video_abc :
  outcome (process_video Scenario.world_up Scenario.summarizer
             "https://www.youtube.com/watch?v=uh9A4LvuGHM") = Ok "It depends." /\
  transcript_calls (trace (process_video Scenario.world_up Scenario.summarizer
             "https://www.youtube.com/watch?v=uh9A4LvuGHM")) = ["uh9A4LvuGHM"].
Proof. split; reflexivity. Qed.

End SummarizerPipeline.

(* ===================================================================== *)
(** * More about the URL parser                                           *)
(* ===================================================================== *)

Section UrlParserMore.
Import Py PyFacts YouTubeSummarizer.

Lemma contains_append_l (x a b : string) : contains x a -> contains x (a ++ b).
Proof.
  intros [p [q ->]]. exists p, (q ++ b). now rewrite !append_assoc.
Qed.

Lemma contains_append_r (x a b : string) : contains x b -> contains x (a ++ b).
Proof.
  intros [p [q ->]]. exists (a ++ p), q. now rewrite !append_assoc.
Qed.

(** One character occurs in a concatenation only if it occurs in a part. *)
Lemma contains_char_append (c : ascii) (a b : string) :
  contains (String c "") (a ++ b) ->
  contains (String c "") a \/ contains (String c "") b.
Proof.
  induction a as [|x a IH]; simpl; intros H; [now right |].
  apply contains_cons in H as [H | H].
  - left. apply contains_cons. left.
    simpl in *. destruct (Ascii.eqb c x); [reflexivity | discriminate].
  - destruct (IH H) as [K | K]; [left | now right].
    apply contains_cons. now right.
Qed.

Lemma before_first_prefix (sep s a : string) :
  before_first sep s a -> exists r, s = a ++ r.
Proof.
  intros [[_ ->] | [b [E _]]].
  - exists "". now rewrite append_empty_r.
  - now exists (sep ++ b).
Qed.

(** The text before the first separator does not contain the separator. *)
Lemma before_first_clean (sep s a : string) :
  sep <> "" -> before_first sep s a -> ~ contains sep a.
Proof.
  intros N [[H ->] | [b [E M]]]; [exact H |].
  intros [p [q E']].
  assert (s = p ++ sep ++ (q ++ sep ++ b)) as E2.
  { rewrite E, E'. now rewrite !append_assoc. }
  specialize (M _ _ E2). rewrite E', !length_append in M.
  destruct sep; [contradiction | simpl in M; lia].
Qed.

Lemma get_video_id_short_parts (url : string) :
  py_in "youtu.be" url = true ->
  exists seg id,
    after_last "/" url seg /\ before_first "?" seg id /\ get_video_id url = Ok id.
Proof.
  intros H. unfold get_video_id. rewrite H.
  destruct (split_last url "/" (sep_nonempty _ _)) as [l [seg [E [I A]]]].
  destruct (split_first seg "?" (sep_nonempty _ _)) as [l2 [id [E2 [I2 B]]]].
  exists seg, id. split; [assumption |]. split; [assumption |].
  rewrite E. cbn [rbind]. rewrite I. cbn [rbind]. rewrite E2. exact I2.
Qed.

Lemma get_video_id_canonical_parts (url : string) :
  py_in "youtu.be" url = false ->
  py_in "youtube.com" url = true ->
  match cut "v=" url with
  | None => get_video_id url = Raise (IndexError "list index out of range")
  | Some (pre, tail) =>
      exists value id,
        before_first "v=" tail value /\ before_first "&" value id /\
        get_video_id url = Ok id
  end.
Proof.
  intros H1 H2. unfold get_video_id. rewrite H1, H2.
  destruct (split_unfold url "v=" (sep_nonempty _ _)) as [l [E C]].
  destruct (cut "v=" url) as [[pre tail]|] eqn:K.
  - destruct C as [l' [E' ->]].
    destruct (split_first tail "v=" (sep_nonempty _ _)) as [l2 [value [E2 [I2 B2]]]].
    assert (l2 = l') as -> by congruence.
    destruct (index_0_inv _ _ I2) as [r ->].
    destruct (split_first value "&" (sep_nonempty _ _)) as [l3 [id [E3 [I3 B3]]]].
    exists value, id. split; [assumption |]. split; [assumption |].
    rewrite E. cbn [rbind]. rewrite index_1. cbn [rbind]. rewrite E3. exact I3.
  - subst l. rewrite E. reflexivity.
Qed.

(** X1.  The three ways [get_video_id] can end, each with its exact
    condition: it returns exactly when the URL contains "youtu.be", or
    contains "youtube.com" and "v="; it raises [IndexError] exactly when
    the URL contains "youtube.com" but neither "youtu.be" nor "v="; it
    raises the invalid-URL error exactly when the URL contains neither
    marker.  It raises nothing else. *)
Theorem get_video_id_outcomes (url : string) :
  ((exists id, get_video_id url = Ok id) <->
     contains "youtu.be" url \/ (contains "youtube.com" url /\ contains "v=" url)) /\
  (get_video_id url = Raise (IndexError "list index out of range") <->
     ~ contains "youtu.be" url /\ contains "youtube.com" url /\ ~ contains "v=" url) /\
  (get_video_id url = Raise InvalidURL <->
     ~ contains "youtu.be" url /\ ~ contains "youtube.com" url) /\
  (forall e, get_video_id url = Raise e ->
     e = IndexError "list index out of range" \/ e = InvalidURL).
Proof.
  destruct (py_in "youtu.be" url) eqn:H1.
  - destruct (get_video_id_short_parts url H1) as [seg [id [_ [_ E]]]].
    apply py_in_contains in H1. rewrite E.
    split; [split; [now left | now exists id] |].
    split; [split; [discriminate | tauto] |].
    split; [split; [discriminate | tauto] | discriminate].
  - destruct (py_in "youtube.com" url) eqn:H2.
    + pose proof (get_video_id_canonical_parts url H1 H2) as P.
      apply py_in_not_contains in H1. apply py_in_contains in H2.
      destruct (cut "v=" url) as [[pre tail]|] eqn:K.
      * destruct P as [value [id [_ [_ E]]]]. rewrite E.
        assert (contains "v=" url) as V
          by (apply cut_first in K as [K _]; now exists pre, tail).
        split; [split; [now right | now exists id] |].
        split; [split; [discriminate | tauto] |].
        split; [split; [discriminate | tauto] | discriminate].
      * apply cut_none in K. rewrite P.
        split; [split; [intros [id E]; discriminate | tauto] |].
        split; [split; [tauto | reflexivity] |].
        split; [split; [discriminate | tauto] |].
        intros e E. injection E as <-. now left.
    + assert (get_video_id url = Raise InvalidURL) as E
        by (unfold get_video_id; now rewrite H1, H2).
      apply py_in_not_contains in H1, H2. rewrite E.
      split; [split; [intros [id E']; discriminate | tauto] |].
      split; [split; [discriminate | tauto] |].
      split; [split; [tauto | reflexivity] |].
      intros e E'. injection E' as <-. now right.
Qed.

(** X2.  Whatever [get_video_id] returns is a piece of the URL, and it is
    free of the delimiters of its rule: no "/" and no "?" under the
    short-link rule, no "&" and no "v=" under the canonical rule. *)
Theorem get_video_id_clean (url id : string) :
  get_video_id url = Ok id ->
  contains id url /\
  (contains "youtu.be" url -> ~ contains "/" id /\ ~ contains "?" id) /\
  (~ contains "youtu.be" url -> ~ contains "&" id /\ ~ contains "v=" id).
Proof.
  intros R. destruct (py_in "youtu.be" url) eqn:H1.
  - destruct (get_video_id_short_parts url H1) as [seg [id' [[NS A] [B E]]]].
    assert (id' = id) as -> by congruence.
    apply py_in_contains in H1.
    destruct (before_first_prefix _ _ _ B) as [r Er].
    split; [| split; [| tauto]].
    + destruct A as [-> | [pre ->]].
      * exists "", r. exact Er.
      * exists (pre ++ "/"), r. rewrite Er. now rewrite !append_assoc.
    + intros _. split.
      * intros C. apply NS. rewrite Er. now apply contains_append_l.
      * now apply (before_first_clean "?" seg id (sep_nonempty _ _)).
  - destruct (py_in "youtube.com" url) eqn:H2.
    + pose proof (get_video_id_canonical_parts url H1 H2) as P.
      apply py_in_not_contains in H1.
      destruct (cut "v=" url) as [[pre tail]|] eqn:K; [| congruence].
      destruct P as [value [id' [Bv [Ba E]]]].
      assert (id' = id) as -> by congruence.
      apply cut_first in K as [K _].
      destruct (before_first_prefix _ _ _ Bv) as [r1 E1].
      destruct (before_first_prefix _ _ _ Ba) as [r2 E2].
      split; [| split; [tauto |]].
      * exists (pre ++ "v="), (r2 ++ r1). rewrite K, E1, E2. now rewrite !append_assoc.
      * intros _. split.
        -- now apply (before_first_clean "&" value id (sep_nonempty _ _)).
        -- intros C.
           apply (before_first_clean "v=" tail value (sep_nonempty _ _) Bv).
           rewrite E2. now apply contains_append_l.
    + unfold get_video_id in R. rewrite H1, H2 in R. discriminate.
Qed.

Lemma get_video_id_clean_witness :
  contains "XYZ" "https://www.youtube.com/watch?v=XYZ&t=10" /\
  ~ contains "&" "XYZ" /\ ~ contains "v=" "XYZ".
Proof.
  destruct (get_video_id_clean "https://www.youtube.com/watch?v=XYZ&t=10" "XYZ" eq_refl)
    as [C [_ N]].
  split; [exact C |].
  apply N. apply py_in_not_contains. reflexivity.
Defined.

(** What the short-link rule selects from a URL put together from its
    parts. *)
Lemma get_video_id_short_build (base id suffix : string) :
  contains "youtu.be" base ->
  ~ contains "/" id ->
  ~ contains "?" id ->
  (suffix = "" \/ exists query, suffix = "?" ++ query /\ ~ contains "/" query) ->
  get_video_id (base ++ "/" ++ id ++ suffix) = Ok id.
Proof.
  intros Hb N1 N2 Hs.
  assert (py_in "youtu.be" (base ++ "/" ++ id ++ suffix) = true) as H
    by (apply py_in_contains; now apply contains_append_l).
  destruct (get_video_id_short_parts _ H) as [seg [id' [A [B E]]]].
  assert (after_last "/" (base ++ "/" ++ id ++ suffix) (id ++ suffix)) as A'.
  { split; [| right; now exists base].
    intros C. apply contains_char_append in C as [C | C]; [contradiction |].
    destruct Hs as [-> | [query [-> NQ]]].
    - apply contains_empty in C. discriminate.
    - apply contains_cons in C as [C | C]; [discriminate | contradiction]. }
  assert (seg = id ++ suffix) as -> by (apply (after_last_unique _ _ _ _ A A')).
  assert (before_first "?" (id ++ suffix) id) as B'.
  { destruct Hs as [-> | [query [-> NQ]]].
    - left. rewrite append_empty_r. split; [assumption | reflexivity].
    - right. exists query. apply cut_first. now apply cut_char_append. }
  rewrite E. f_equal. apply (before_first_unique _ _ _ _ B B').
Qed.

(** X3.  Building a short link and parsing it gives the identifier
    back: for a base containing "youtu.be", an identifier without "/" and
    "?", and nothing or a "?"-query without "/" after it,
    [get_video_id (base ++ "/" ++ id ++ suffix)] returns [id]. *)
Theorem get_video_id_short_round_trip (base id suffix : string) :
  contains "youtu.be" base ->
  ~ contains "/" id ->
  ~ contains "?" id ->
  (suffix = "" \/ exists query, suffix = "?" ++ query /\ ~ contains "/" query) ->
  get_video_id (base ++ "/" ++ id ++ suffix) = Ok id.
Proof. exact (get_video_id_short_build base id suffix). Qed.

Lemma get_video_id_short_round_trip_witness :
  get_video_id ("https://youtu.be" ++ "/" ++ "dQw4w9WgXcQ" ++ "?t=43") = Ok "dQw4w9WgXcQ".
Proof.
  apply (get_video_id_short_round_trip "https://youtu.be" "dQw4w9WgXcQ" "?t=43").
  - apply py_in_contains; reflexivity.
  - apply py_in_not_contains; reflexivity.
  - apply py_in_not_contains; reflexivity.
  - right. exists "t=43". split; [reflexivity | apply py_in_not_contains; reflexivity].
Defined.

(** Where "v=" first occurs when nothing before it contains "v=". *)
Lemma cut_v_append (base rest : string) :
  ~ contains "v=" base ->
  cut "v=" (base ++ "v=" ++ rest) = Some (base, rest).
Proof.
  intros N.
  destruct (cut_some "v=" (base ++ "v=" ++ rest)) as [a [b C]]; [now exists base, rest |].
  rewrite C. f_equal.
  pose proof (cut_first _ _ _ _ C) as F.
  assert (first_cut "v=" (base ++ "v=" ++ rest) base rest) as F'.
  { split; [reflexivity |]. intros a' b' E.
    destruct (Nat.le_gt_cases (String.length base) (String.length a')) as [L | L]; [exact L |].
    symmetry in E.
    destruct (append_eq_append _ _ _ _ E) as [x [Ex Ey]]; [lia |].
    destruct x as [|c [|d x]].
    - rewrite Ex, append_empty_r in L. lia.
    - simpl in Ey. injection Ey as _ Ey. discriminate.
    - simpl in Ey. injection Ey as <- <- _. exfalso. apply N.
      exists a', x. exact Ex. }
  destruct (first_cut_unique _ _ _ _ _ _ F F') as [-> ->]. reflexivity.
Qed.

(** X4.  Building a canonical link and parsing it gives the identifier
    back: when the URL [base ++ "v=" ++ id ++ suffix] contains
    "youtube.com" and not "youtu.be", [base] is free of "v=", [id] is
    free of "&" and "v=", and [suffix] is empty or begins with "&",
    [get_video_id] returns [id]. *)
Theorem get_video_id_canonical_round_trip (base id suffix : string) :
  ~ contains "youtu.be" (base ++ "v=" ++ id ++ suffix) ->
  contains "youtube.com" (base ++ "v=" ++ id ++ suffix) ->
  ~ contains "v=" base ->
  ~ contains "&" id ->
  ~ contains "v=" id ->
  (suffix = "" \/ exists rest, suffix = "&" ++ rest) ->
  get_video_id (base ++ "v=" ++ id ++ suffix) = Ok id.
Proof.
  intros H1 H2 Nb Na Nv Hs.
  apply py_in_not_contains in H1. apply py_in_contains in H2.
  pose proof (get_video_id_canonical_parts _ H1 H2) as P.
  rewrite (cut_v_append base (id ++ suffix) Nb) in P.
  destruct P as [value [id' [Bv [Ba E]]]].
  rewrite E. f_equal.
  destruct Hs as [-> | [rest ->]].
  - rewrite append_empty_r in Bv.
    assert (value = id) as ->.
    { apply (before_first_unique _ _ _ _ Bv). left. now split. }
    apply (before_first_unique _ _ _ _ Ba). left. now split.
  - assert (exists r, value = id ++ "&" ++ r) as [r ->].
    { destruct Bv as [[_ ->] | [b [Eb _]]]; [now exists rest |].
      destruct (Nat.le_gt_cases (String.length value) (String.length id)) as [L | L].
      - symmetry in Eb.
        destruct (append_eq_append _ _ _ _ Eb L) as [x [Ex Ey]].
        exfalso. destruct x as [|c [|d x]].
        + simpl in Ey. discriminate.
        + simpl in Ey. injection Ey as _ Ey. discriminate.
        + simpl in Ey. injection Ey as <- <- _. apply Nv. now exists value, x.
      - destruct (append_eq_append _ _ _ _ Eb) as [y [Ex Ey]]; [lia |].
        destruct y as [|c y].
        + rewrite Ex, append_empty_r in L. lia.
        + simpl in Ey. injection Ey as <- _. now exists y. }
    apply (before_first_unique _ _ _ _ Ba).
    right. exists r. apply cut_first. now apply cut_char_append.
Qed.

Lemma get_video_id_canonical_round_trip_witness :
  get_video_id ("https://www.youtube.com/watch?" ++ "v=" ++ "uh9A4LvuGHM" ++ "&t=10s")
    = Ok "uh9A4LvuGHM".
Proof.
  apply (get_video_id_canonical_round_trip
           "https://www.youtube.com/watch?" "uh9A4LvuGHM" "&t=10s").
  - apply py_in_not_contains; reflexivity.
  - apply py_in_contains; reflexivity.
  - apply py_in_not_contains; reflexivity.
  - apply py_in_not_contains; reflexivity.
  - apply py_in_not_contains; reflexivity.
  - right. now exists "t=10s".
Defined.

End UrlParserMore.

(* ===================================================================== *)
(** * More about the two pipelines                                        *)
(* ===================================================================== *)

Section PipelinesMore.
Import Py PyFacts Effects Langchain Prompts Scenario.

(** [process_video], stage by stage. *)
Lemma process_video_run (W : World) (self : YouTubeSummarizer.self_t) (url : string) :
  YouTubeSummarizer.process_video W self url =
    match YouTubeSummarizer.get_video_id url with
    | Raise e => ([], Raise e)
    | Ok video_id =>
        if py_not video_id then ([], Raise YouTubeSummarizer.MissingArgument_video_id)
        else
          match YouTubeTranscriptApi_get_transcript W video_id with
          | inl cause =>
              ([TranscriptCall video_id],
               Raise (YouTubeSummarizer.TranscriptUnavailable (Foreign cause)))
          | inr segments =>
              let '(t, r) :=
                YouTubeSummarizer.summarize W self (join " " (map text segments)) in
              (TranscriptCall video_id :: t, r)
          end
    end.
Proof.
  unfold YouTubeSummarizer.process_video.
  destruct (YouTubeSummarizer.get_video_id url) as [video_id | e]; [| reflexivity].
  unfold lift. cbn [bind].
  destruct (py_not video_id) eqn:N.
  - apply py_not_true in N as ->. reflexivity.
  - apply py_not_false in N. rewrite (get_transcript_run W video_id N).
    destruct (YouTubeTranscriptApi_get_transcript W video_id) as [cause | segments];
      [reflexivity |].
    cbn [bind app].
    destruct (YouTubeSummarizer.summarize W self (join " " (map text segments)));
      reflexivity.
Qed.

(** The only texts a single-space join turns into the empty string. *)
Lemma join_space_empty (l : list string) :
  join " " l = "" <-> l = [] \/ l = [""].
Proof.
  split.
  - destruct l as [|x [|y l]]; [now left | simpl; intros ->; now right |].
    rewrite join_cons. destruct x; discriminate.
  - intros [-> | ->]; reflexivity.
Qed.

(** X5.  A short link with nothing between its last "/" and the end (or
    the "?" of its query) gets past the parser with an empty identifier,
    and [process_video] then fails with the missing-argument error of
    [get_transcript] before any service is called. *)
Theorem process_video_empty_identifier (W : World) (self : YouTubeSummarizer.self_t)
    (base suffix : string) :
  contains "youtu.be" base ->
  (suffix = "" \/ exists query, suffix = "?" ++ query /\ ~ contains "/" query) ->
  YouTubeSummarizer.process_video W self (base ++ "/" ++ suffix) =
    ([], Raise (ValueError "Video ID is required")).
Proof.
  intros Hb Hs. rewrite process_video_run.
  assert (~ contains "/" "" /\ ~ contains "?" "") as [N1 N2]
    by (split; intros C; apply contains_empty in C; discriminate).
  rewrite (get_video_id_short_build base "" suffix Hb N1 N2 Hs : 
             YouTubeSummarizer.get_video_id (base ++ "/" ++ suffix) = Ok "").
  reflexivity.
Qed.

Lemma process_video_empty_identifier_witness :
  YouTubeSummarizer.process_video world_up summarizer ("https://youtu.be" ++ "/" ++ "?t=43") =
    ([], Raise (ValueError "Video ID is required")).
Proof.
  apply (process_video_empty_identifier world_up summarizer "https://youtu.be" "?t=43").
  - apply py_in_contains; reflexivity.
  - right. exists "t=43". split; [reflexivity | apply py_in_not_contains; reflexivity].
Defined.

(** X6.  Once the identifier is parsed and the transcript service has
    answered, [process_video] fails with "Transcript is required for
    summarization" exactly when the service delivered no segment or one
    segment with an empty text; the trace then holds the transcript call
    and nothing else. *)
Theorem process_video_empty_transcript (W : World) (self : YouTubeSummarizer.self_t)
    (url video_id : string) (segments : list Segment) :
  YouTubeSummarizer.get_video_id url = Ok video_id ->
  video_id <> "" ->
  YouTubeTranscriptApi_get_transcript W video_id = inr segments ->
  (outcome (YouTubeSummarizer.process_video W self url) =
     Raise (ValueError "Transcript is required for summarization")
   <-> segments = [] \/ exists s, segments = [s] /\ text s = "") /\
  (segments = [] \/ (exists s, segments = [s] /\ text s = "") ->
   trace (YouTubeSummarizer.process_video W self url) = [TranscriptCall video_id]).
Proof.
  intros E N F. rewrite process_video_run, E.
  apply py_not_false in N. rewrite N, F.
  assert (join " " (map text segments) = "" <->
          segments = [] \/ exists s, segments = [s] /\ text s = "") as J.
  { rewrite join_space_empty. split.
    - intros [H | H].
      + left. now destruct segments.
      + right. destruct segments as [|s [|s' l]]; try discriminate.
        exists s. split; [reflexivity | now injection H].
    - intros [-> | [s [-> H]]]; [now left | right; simpl; now rewrite H]. }
  destruct (join " " (map text segments)) as [|c t] eqn:T.
  - split; [split; [intros _; now apply J | reflexivity] | reflexivity].
  - assert (~ (segments = [] \/ exists s, segments = [s] /\ text s = "")) as NJ
      by (intros H; apply J in H; discriminate).
    split; [| tauto]. split; [| tauto].
    rewrite summarize_run by discriminate.
    destruct (tiktoken_encode W "gpt-4o-mini" _); [discriminate |].
    destruct (ChatGroq_init W _); [discriminate |].
    cbn [outcome snd].
    destruct (ChatGroq_invoke W _ _); discriminate.
Qed.

Lemma process_video_empty_transcript_witness :
  trace (YouTubeSummarizer.process_video Cases.world_silent
           summarizer "https://youtu.be/dQw4w9WgXcQ") = [TranscriptCall "dQw4w9WgXcQ"].
Proof.
  refine (proj2 (process_video_empty_transcript Cases.world_silent summarizer
                   "https://youtu.be/dQw4w9WgXcQ" "dQw4w9WgXcQ" []
                   eq_refl _ eq_refl) (or_introl eq_refl)).
  discriminate.
Defined.

(** X7.  One run of [process_video] calls the transcript service at most
    once and the completion service at most once, and a completion call
    is only ever made with the summary prompt of the transcript that the
    transcript service delivered for the parsed identifier, after that
    transcript call. *)
Theorem process_video_call_discipline (W : World) (self : YouTubeSummarizer.self_t)
    (url : string) :
  List.length (transcript_calls (trace (YouTubeSummarizer.process_video W self url))) <= 1 /\
  List.length (completion_calls (trace (YouTubeSummarizer.process_video W self url))) <= 1 /\
  forall llm prompt,
    In (llm, prompt) (completion_calls (trace (YouTubeSummarizer.process_video W self url))) ->
    exists video_id segments rest,
      YouTubeSummarizer.get_video_id url = Ok video_id /\
      YouTubeTranscriptApi_get_transcript W video_id = inr segments /\
      trace (YouTubeSummarizer.process_video W self url) = TranscriptCall video_id :: rest /\
      prompt = summary_prompt_text (join " " (map text segments))
                 (str_of_nat (YouTubeSummarizer.top_n_points self)) /\
      llm = YouTubeSummarizer.summarize_model self.
Proof.
  rewrite process_video_run.
  destruct (YouTubeSummarizer.get_video_id url) as [video_id | e];
    [| repeat split; simpl; try lia; contradiction].
  destruct (py_not video_id);
    [repeat split; simpl; try lia; contradiction |].
  destruct (YouTubeTranscriptApi_get_transcript W video_id) as [cause | segments] eqn:F;
    [repeat split; simpl; try lia; contradiction |].
  destruct (join " " (map text segments)) as [|c t] eqn:T;
    [repeat split; simpl; try lia; contradiction |].
  rewrite summarize_run by discriminate. rewrite <- T.
  destruct (tiktoken_encode W "gpt-4o-mini" _);
    [repeat split; simpl; try lia; contradiction |].
  destruct (ChatGroq_init W _);
    [repeat split; simpl; try lia; contradiction |].
  split; [simpl; lia |]. split; [simpl; lia |].
  intros llm prompt [H | []]. injection H as <- <-.
  exists video_id, segments. eexists.
  split; [reflexivity |]. split; [exact F |]. split; [reflexivity |].
  split; reflexivity.
Qed.

(** X8.  When every stage succeeds (the model constructor included),
    [process_video] returns the reply of the completion service
    unchanged, and the stages are observed in order: the transcript call,
    the token diagnostic and its two printed lines, then the completion
    call with the summary prompt of the joined transcript. *)
Theorem process_video_success (W : World) (self : YouTubeSummarizer.self_t)
    (url video_id reply : string) (segments : list Segment) (tokens : list N) :
  let transcript := join " " (map text segments) in
  let prompt :=
    summary_prompt_text transcript (str_of_nat (YouTubeSummarizer.top_n_points self)) in
  YouTubeSummarizer.get_video_id url = Ok video_id ->
  video_id <> "" ->
  YouTubeTranscriptApi_get_transcript W video_id = inr segments ->
  transcript <> "" ->
  tiktoken_encode W "gpt-4o-mini" prompt = inr tokens ->
  ChatGroq_init W (YouTubeSummarizer.summarize_model self) = None ->
  ChatGroq_invoke W (YouTubeSummarizer.summarize_model self) prompt = inr reply ->
  YouTubeSummarizer.process_video W self url =
    ([TranscriptCall video_id;
      TiktokenEncode "gpt-4o-mini" prompt;
      Stdout ("Prompt Text: " ++ prompt);
      Stdout ("Prompt Input Tokens: " ++ str_of_nat (List.length tokens));
      CompletionCall (YouTubeSummarizer.summarize_model self) prompt],
     Ok reply).
Proof.
  intros transcript prompt E N F T K I C.
  rewrite process_video_run, E. apply py_not_false in N. rewrite N, F.
  fold transcript. rewrite (summarize_run W self transcript T).
  fold prompt. rewrite K, I, C. reflexivity.
Qed.

Lemma process_video_success_witness :
  YouTubeSummarizer.process_video world_up summarizer "https://youtu.be/dQw4w9WgXcQ" =
    ([TranscriptCall "dQw4w9WgXcQ";
      TiktokenEncode "gpt-4o-mini" (summary_prompt_text "a b c" "5");
      Stdout ("Prompt Text: " ++ summary_prompt_text "a b c" "5");
      Stdout "Prompt Input Tokens: 3";
      CompletionCall (YouTubeSummarizer.summarize_model summarizer)
        (summary_prompt_text "a b c" "5")],
     Ok "It depends.").
Proof.
  refine (process_video_success world_up summarizer "https://youtu.be/dQw4w9WgXcQ"
            "dQw4w9WgXcQ" "It depends." abc_segments [11%N; 22%N; 33%N]
            eq_refl _ eq_refl _ eq_refl eq_refl eq_refl); discriminate.
Defined.

(** X9.  How [summarize] ends, cause by cause.  It raises "Transcript is
    required for summarization" exactly when the transcript is empty,
    and has then called nothing.  A foreign exception comes out, not
    wrapped, of the token diagnostic or of the model constructor that
    follows it, both before the [try]; no completion call was made then,
    and in the second case the diagnostic has printed its two lines.  An
    [Exception] comes out only of a failed completion call, as "AI
    summarization failed: " followed by the text of the cause.  A
    returned summary is the reply of the completion service, unchanged. *)
Theorem summarize_outcomes (W : World) (self : YouTubeSummarizer.self_t)
    (transcript : string) :
  let prompt :=
    summary_prompt_text transcript (str_of_nat (YouTubeSummarizer.top_n_points self)) in
  let kwargs := YouTubeSummarizer.summarize_model self in
  let run := YouTubeSummarizer.summarize W self transcript in
  (outcome run = Raise (ValueError "Transcript is required for summarization")
     <-> transcript = "") /\
  (transcript = "" -> trace run = []) /\
  (forall e, outcome run = Raise (Foreign e) ->
     (tiktoken_encode W "gpt-4o-mini" prompt = inl e \/
      exists tokens,
        tiktoken_encode W "gpt-4o-mini" prompt = inr tokens /\
        ChatGroq_init W kwargs = Some e /\
        trace run = [TiktokenEncode "gpt-4o-mini" prompt;
                     Stdout ("Prompt Text: " ++ prompt);
                     Stdout ("Prompt Input Tokens: " ++ str_of_nat (List.length tokens))]) /\
     completion_calls (trace run) = []) /\
  (forall msg, outcome run = Raise (Exception msg) ->
     ChatGroq_init W kwargs = None /\
     exists cause,
       ChatGroq_invoke W kwargs prompt = inl cause /\
       msg = "AI summarization failed: " ++ exn_text cause) /\
  (forall summary, outcome run = Ok summary ->
     ChatGroq_init W kwargs = None /\
     ChatGroq_invoke W kwargs prompt = inr summary) /\
  (forall tokens e,
     transcript <> "" ->
     tiktoken_encode W "gpt-4o-mini" prompt = inr tokens ->
     ChatGroq_init W kwargs = Some e ->
     outcome run = Raise (Foreign e)).
Proof.
  intros prompt kwargs run. subst run.
  destruct transcript as [|c t].
  - cbn. split; [tauto |]. split; [reflexivity |].
    split; [discriminate |]. split; [discriminate |]. split; [discriminate |].
    intros tokens e N. now contradiction N.
  - rewrite summarize_run by discriminate. fold prompt. fold kwargs.
    destruct (tiktoken_encode W "gpt-4o-mini" prompt) as [e | tokens] eqn:K.
    + cbn [outcome trace fst snd].
      split; [split; discriminate |]. split; [discriminate |].
      split; [intros e' H; injection H as <-; split; [now left | reflexivity] |].
      split; [discriminate |]. split; discriminate.
    + destruct (ChatGroq_init W kwargs) as [e |] eqn:I.
      * cbn [outcome trace fst snd].
        split; [split; discriminate |]. split; [discriminate |].
        split.
        { intros e' H. injection H as <-. split; [| reflexivity].
          right. exists tokens. repeat split. }
        split; [discriminate |]. split; [discriminate |].
        intros tokens' e' _ _ H. now injection H as <-.
      * cbn [outcome trace fst snd].
        destruct (ChatGroq_invoke W kwargs prompt) as [cause | reply].
        -- split; [split; discriminate |]. split; [discriminate |].
           split; [discriminate |].
           split; [| split; discriminate].
           intros msg H. injection H as <-. split; [reflexivity | now exists cause].
        -- split; [split; discriminate |]. split; [discriminate |].
           split; [discriminate |].
           split; [discriminate |].
           split; [| discriminate].
           intros summary H. injection H as <-. now split.
Qed.

Lemma summarize_outcomes_witness :
  outcome (YouTubeSummarizer.summarize Cases.world_no_key summarizer "a b c") =
    Raise (Foreign Cases.no_api_key).
Proof.
  refine (proj2 (proj2 (proj2 (proj2 (proj2
            (summarize_outcomes Cases.world_no_key summarizer "a b c")))))
            [11%N; 22%N; 33%N] Cases.no_api_key _ eq_refl eq_refl).
  discriminate.
Defined.

(** X10.  How [ask] ends on a present question, cause by cause.  A
    foreign exception comes out, not wrapped, of the token diagnostic or
    of the model constructor that follows it, both before the [try]; no
    completion call was made then, and in the second case the diagnostic
    has printed its two lines.  An [Exception] comes out only of a failed
    completion call, as "Error processing question: " followed by the
    text of the cause.  A returned answer is the reply of the completion
    service, unchanged.  Nothing else is raised. *)
Theorem ask_outcomes (W : World) (self : MultiTools.self_t) (question : string) :
  let prompt :=
    agent_prompt_text (MultiTools.tools_str self)
      (str_of_list (MultiTools.tool_names self)) question in
  let kwargs := MultiTools.ask_model self in
  let llm := ChatGroq_stored kwargs in
  let run := MultiTools.ask W self (Some question) in
  (forall e, outcome run = Raise (Foreign e) ->
     (tiktoken_encode W "gpt-4o-mini" prompt = inl e \/
      exists tokens,
        tiktoken_encode W "gpt-4o-mini" prompt = inr tokens /\
        ChatGroq_init W kwargs = Some e /\
        trace run = [TiktokenEncode "gpt-4o-mini" prompt;
                     Stdout ("Prompt Text: " ++ prompt);
                     Stdout ("Prompt Input Tokens: " ++ str_of_nat (List.length tokens))]) /\
     completion_calls (trace run) = []) /\
  (forall msg, outcome run = Raise (Exception msg) ->
     ChatGroq_init W kwargs = None /\
     exists cause,
       ChatGroq_invoke W llm prompt = inl cause /\
       msg = "Error processing question: " ++ exn_text cause) /\
  (forall answer, outcome run = Ok answer ->
     ChatGroq_init W kwargs = None /\
     ChatGroq_invoke W llm prompt = inr answer) /\
  (forall e, outcome run = Raise e ->
     (exists f, e = Foreign f) \/ (exists msg, e = Exception msg)) /\
  (forall tokens e,
     tiktoken_encode W "gpt-4o-mini" prompt = inr tokens ->
     ChatGroq_init W kwargs = Some e ->
     outcome run = Raise (Foreign e)).
Proof.
  intros prompt kwargs llm run. subst run. rewrite ask_run.
  fold prompt. fold kwargs. fold llm.
  destruct (tiktoken_encode W "gpt-4o-mini" prompt) as [e | tokens] eqn:K.
  - cbn [outcome trace fst snd].
    split; [intros e' H; injection H as <-; split; [now left | reflexivity] |].
    split; [discriminate |]. split; [discriminate |].
    split; [| discriminate].
    intros e' H. injection H as <-. left. now exists e.
  - destruct (ChatGroq_init W kwargs) as [e |] eqn:I.
    + cbn [outcome trace fst snd].
      split.
      { intros e' H. injection H as <-. split; [| reflexivity].
        right. exists tokens. repeat split. }
      split; [discriminate |]. split; [discriminate |].
      split.
      { intros e' H. injection H as <-. left. now exists e. }
      intros tokens' e' _ H. now injection H as <-.
    + cbn [outcome trace fst snd].
      destruct (ChatGroq_invoke W llm prompt) as [cause | reply].
      * split; [discriminate |].
        split; [intros msg H; injection H as <-; split; [reflexivity | now exists cause] |].
        split; [discriminate |].
        split; [| discriminate].
        intros e' H. injection H as <-. right. eexists. reflexivity.
      * split; [discriminate |]. split; [discriminate |].
        split; [intros answer H; injection H as <-; now split |].
        split; discriminate.
Qed.

Lemma ask_outcomes_witness :
  outcome (MultiTools.ask Cases.world_no_key (agent Cases.world_no_key)
             (Some "Who wrote Dune?")) = Raise (Foreign Cases.no_api_key).
Proof.
  exact (proj2 (proj2 (proj2 (proj2
           (ask_outcomes Cases.world_no_key (agent Cases.world_no_key) "Who wrote Dune?"))))
           [11%N; 22%N; 33%N] Cases.no_api_key eq_refl eq_refl).
Defined.

(** X11.  The prompt shown by the diagnostic is the prompt that is sent:
    in [ask] and in [summarize], the prompt of every completion call is
    the text the tokenizer was given and the text printed after "Prompt
    Text: ", although the code renders the template twice, from two
    separately written sets of keyword arguments. *)
Theorem diagnostic_prompt_is_sent_prompt (W : World) :
  (forall self question llm prompt,
     In (CompletionCall llm prompt) (trace (MultiTools.ask W self question)) ->
     In (TiktokenEncode "gpt-4o-mini" prompt) (trace (MultiTools.ask W self question)) /\
     In (Stdout ("Prompt Text: " ++ prompt)) (trace (MultiTools.ask W self question))) /\
  (forall self transcript llm prompt,
     In (CompletionCall llm prompt) (trace (YouTubeSummarizer.summarize W self transcript)) ->
     In (TiktokenEncode "gpt-4o-mini" prompt)
        (trace (YouTubeSummarizer.summarize W self transcript)) /\
     In (Stdout ("Prompt Text: " ++ prompt))
        (trace (YouTubeSummarizer.summarize W self transcript))).
Proof.
  split.
  - intros self [q|] llm prompt H; [| contradiction].
    rewrite ask_run in *.
    destruct (tiktoken_encode W "gpt-4o-mini" _).
    + destruct H as [H | []]. discriminate.
    + destruct (ChatGroq_init W _).
      * destruct H as [H | [H | [H | []]]]; discriminate.
      * destruct H as [H | [H | [H | [H | []]]]]; try discriminate.
        injection H as _ <-. split; [now left | right; now left].
  - intros self [|c t] llm prompt H; [contradiction |].
    rewrite summarize_run in * by discriminate.
    destruct (tiktoken_encode W "gpt-4o-mini" _).
    + destruct H as [H | []]. discriminate.
    + destruct (ChatGroq_init W _).
      * destruct H as [H | [H | [H | []]]]; discriminate.
      * destruct H as [H | [H | [H | [H | []]]]]; try discriminate.
        injection H as _ <-. split; [now left | right; now left].
Qed.

Lemma diagnostic_prompt_is_sent_prompt_witness :
  In (Stdout ("Prompt Text: " ++ summary_prompt_text "a b c" "5"))
     (trace (YouTubeSummarizer.summarize world_up summarizer "a b c")).
Proof.
  refine (proj2 (proj2 (diagnostic_prompt_is_sent_prompt world_up) summarizer "a b c"
                   (YouTubeSummarizer.summarize_model summarizer)
                   (summary_prompt_text "a b c" "5") _)).
  right. right. right. left. reflexivity.
Defined.

End PipelinesMore.

(* ===================================================================== *)
(** * The menu loop                                                       *)
(* ===================================================================== *)

Section MenuLoop.
Import Py PyFacts Effects Agents.

Lemma services_app (a b : list cli_event) :
  services (a ++ b) = (services a ++ services b)%list.
Proof.
  induction a as [|[e | p l] a IH]; simpl; [reflexivity | now rewrite IH | exact IH].
Qed.

Lemma services_map_Ev (t : list event) : services (map Ev t) = t.
Proof. induction t as [|e t IH]; simpl; [reflexivity | now rewrite IH]. Qed.

Lemma completion_calls_app (a b : list event) :
  completion_calls (a ++ b) = (completion_calls a ++ completion_calls b)%list.
Proof.
  induction a as [|[] a IH]; simpl; try exact IH; [reflexivity | now rewrite IH].
Qed.

Lemma transcript_calls_app (a b : list event) :
  transcript_calls (a ++ b) = (transcript_calls a ++ transcript_calls b)%list.
Proof.
  induction a as [|[] a IH]; simpl; try exact IH; [reflexivity | now rewrite IH].
Qed.

(** A pass that goes round again has read at least one line, and a pass
    ends the program only by [sys.exit(0)] or at the end of input. *)
Lemma iteration_step (W : World) (stdin : list string) :
  match snd (iteration W stdin) with
  | Continue stdin' => List.length stdin' < List.length stdin
  | Stop e => e = Exit 0 \/ e = Uncaught EOFError
  end.
Proof.
  unfold iteration. destruct stdin as [|choice stdin1]; [now right |].
  destruct (String.eqb choice "1").
  { destruct stdin1; simpl; lia. }
  destruct (String.eqb choice "2").
  { destruct stdin1; simpl; lia. }
  destruct (String.eqb choice "3"); [now left | simpl; lia].
Qed.

Lemma loop_fuel_enough (W : World) (n m : nat) (stdin : list string) :
  List.length stdin < n -> List.length stdin < m ->
  loop n W stdin = loop m W stdin.
Proof.
  revert m stdin. induction n as [|n IH]; intros m stdin Ln Lm; [lia |].
  destruct m as [|m]; [lia |]. cbn [loop].
  pose proof (iteration_step W stdin) as S.
  destruct (iteration W stdin) as [t [stdin' | e]]; [| reflexivity].
  cbn [snd] in S. rewrite (IH m stdin') by lia. reflexivity.
Qed.

Lemma loop_ends (W : World) (n : nat) (stdin : list string) :
  List.length stdin < n ->
  snd (loop n W stdin) = Some (Exit 0) \/ snd (loop n W stdin) = Some (Uncaught EOFError).
Proof.
  revert stdin. induction n as [|n IH]; intros stdin L; [lia |].
  cbn [loop]. pose proof (iteration_step W stdin) as S.
  destruct (iteration W stdin) as [t [stdin' | e]]; cbn [snd] in S.
  - specialize (IH stdin' ltac:(lia)).
    destruct (loop n W stdin') as [t' e']. exact IH.
  - destruct S as [-> | ->]; [now left | now right].
Qed.

Lemma loop_S (n : nat) (W : World) (stdin : list string) :
  loop (Datatypes.S n) W stdin =
    match iteration W stdin with
    | (t, Stop e) => (t, Some e)
    | (t, Continue stdin') =>
        let '(t', e) := loop n W stdin' in ((t ++ t')%list, e)
    end.
Proof. reflexivity. Qed.

(** [main] with the key set, one pass at a time. *)
Lemma main_step (W : World) (key : option string) (stdin : list string) :
  unset key = false ->
  main W key stdin =
    match iteration W stdin with
    | (t, Stop e) => (t, Some e)
    | (t, Continue stdin') =>
        ((t ++ fst (main W key stdin'))%list, snd (main W key stdin'))
    end.
Proof.
  intros K. unfold main. rewrite K, loop_S.
  pose proof (iteration_step W stdin) as S.
  destruct (iteration W stdin) as [t [stdin' | e]]; [| reflexivity].
  cbn [snd] in S.
  rewrite (loop_fuel_enough W (List.length stdin) (Datatypes.S (List.length stdin')) stdin')
    by lia.
  destruct (loop (Datatypes.S (List.length stdin')) W stdin'). reflexivity.
Qed.






Lemma unset_false (key : option string) :
  unset key = false <-> exists k, key = Some k /\ k <> "".
Proof.
  destruct key as [[|c s]|]; simpl; split; intros H; try reflexivity; try discriminate.
  - destruct H as [k [E N]]. injection E as <-. now contradiction N.
  - eexists. split; [reflexivity | discriminate].
  - destruct H as [k [E _]]. discriminate.
Qed.

(** What a request leaves on the terminal: its own events, then one
    printed line, the answer or the error. *)
Lemma respond_services (request : M string) :
  services (respond request) =
    (trace request ++
     [Stdout match outcome request with
             | Ok response => "LLM Response: 
" ++ response ++ "

"
             | Raise e => "Error: " ++ str e
             end])%list.
Proof.
  destruct request as [t [response | e]]; unfold respond;
    rewrite services_app, services_map_Ev; reflexivity.
Qed.

Lemma summarizer_request (W : World) (url : string) :
  (summarizer <- YouTubeSummarizer.__init__ ;;
   YouTubeSummarizer.process_video W summarizer url)%M =
  (Stdout "Using AI Model: llama-3.2-3b-preview
" :: trace (YouTubeSummarizer.process_video W Scenario.summarizer url),
   outcome (YouTubeSummarizer.process_video W Scenario.summarizer url)).
Proof.
  rewrite summarizer_init. unfold bind.
  destruct (YouTubeSummarizer.process_video W Scenario.summarizer url). reflexivity.
Qed.

Lemma agent_request (W : World) (question : string) :
  (multi_tools <- MultiTools.__init__ W ;;
   MultiTools.ask W multi_tools (Some question))%M =
  (Stdout "Using AI Model: llama-3.2-3b-preview
" :: trace (MultiTools.ask W (Scenario.agent W) (Some question)),
   outcome (MultiTools.ask W (Scenario.agent W) (Some question))).
Proof.
  rewrite agent_init. unfold bind.
  destruct (MultiTools.ask W (Scenario.agent W) (Some question)). reflexivity.
Qed.

(** The passes of the loop, by the line read at the menu. *)
Lemma iteration_summarize (W : World) (url : string) (rest : list string) :
  exists t,
    iteration W ("1" :: url :: rest) = (t, Continue rest) /\
    services t =
      ([Stdout "
Welcome to AI Agents Experiments!";
        Stdout "1. YouTube Video Summarizer";
        Stdout "2. Multi-Tool Assistant";
        Stdout "3. Exit";
        Stdout "Using AI Model: llama-3.2-3b-preview
"] ++ trace (YouTubeSummarizer.process_video W Scenario.summarizer url) ++
       [Stdout match outcome (YouTubeSummarizer.process_video W Scenario.summarizer url) with
               | Ok response => "LLM Response: 
" ++ response ++ "

"
               | Raise e => "Error: " ++ str e
               end])%list.
Proof.
  eexists. split; [reflexivity |].
  rewrite services_app. cbn [services app].
  rewrite respond_services, summarizer_request. reflexivity.
Qed.

Lemma iteration_ask (W : World) (question : string) (rest : list string) :
  exists t,
    iteration W ("2" :: question :: rest) = (t, Continue rest) /\
    services t =
      ([Stdout "
Welcome to AI Agents Experiments!";
        Stdout "1. YouTube Video Summarizer";
        Stdout "2. Multi-Tool Assistant";
        Stdout "3. Exit";
        Stdout "Using AI Model: llama-3.2-3b-preview
"] ++ trace (MultiTools.ask W (Scenario.agent W) (Some question)) ++
       [Stdout match outcome (MultiTools.ask W (Scenario.agent W) (Some question)) with
               | Ok response => "LLM Response: 
" ++ response ++ "

"
               | Raise e => "Error: " ++ str e
               end])%list.
Proof.
  eexists. split; [reflexivity |].
  rewrite services_app. cbn [services app].
  rewrite respond_services, agent_request. reflexivity.
Qed.

Lemma iteration_other (W : World) (choice : string) (rest : list string) :
  choice <> "1" -> choice <> "2" ->
  exists t texts,
    services t = map Stdout texts /\
    (iteration W (choice :: rest) = (t, Stop (Exit 0)) /\ choice = "3" \/
     iteration W (choice :: rest) = (t, Continue rest) /\ choice <> "3").
Proof.
  intros N1 N2. unfold iteration.
  apply String.eqb_neq in N1, N2. rewrite N1, N2.
  destruct (String.eqb_spec choice "3") as [-> | N3].
  - eexists. eexists (_ :: _ :: _ :: _ :: _ :: nil).
    split; [| left; split; reflexivity]. reflexivity.
  - eexists. eexists (_ :: _ :: _ :: _ :: _ :: nil).
    split; [| right; split; [reflexivity | exact N3]]. reflexivity.
Qed.

Lemma iteration_eof (W : World) :
  exists t texts,
    iteration W [] = (t, Stop (Uncaught EOFError)) /\ services t = map Stdout texts.
Proof.
  eexists. eexists (_ :: _ :: _ :: _ :: nil). split; reflexivity.
Qed.

(** X13.  When no line of the input is "1" or "2", [main] contacts no
    service: everything it does besides reading lines is printing. *)
Theorem main_without_requests (W : World) (key : option string) (stdin : list string) :
  Forall (fun line => line <> "1" /\ line <> "2") stdin ->
  exists texts, services (fst (main W key stdin)) = map Stdout texts.
Proof.
  intros F. destruct (unset key) eqn:K.
  - unfold main. rewrite K. now exists ["Error: GROQ_API_KEY not found in environment variables"].
  - induction F as [|choice rest [N1 N2] F IH]; rewrite (main_step W key _ K).
    + destruct (iteration_eof W) as [t [texts [-> E]]]. now exists texts.
    + destruct (iteration_other W choice rest N1 N2) as [t [texts [E [[-> _] | [-> _]]]]].
      * now exists texts.
      * destruct IH as [texts' E']. exists (texts ++ texts')%list.
        cbn [fst]. now rewrite services_app, E, E', map_app.
Qed.

Lemma main_without_requests_witness :
  exists texts,
    services (fst (main Scenario.world_up (Some "gsk_live") ["7"; "help"; "3"]))
      = map Stdout texts.
Proof.
  apply (main_without_requests Scenario.world_up (Some "gsk_live") ["7"; "help"; "3"]).
  repeat (constructor; [split; discriminate |]). constructor.
Defined.

Lemma prints_call_nothing (texts : list string) :
  completion_calls (map Stdout texts) = [] /\ transcript_calls (map Stdout texts) = [].
Proof. induction texts as [|x texts IH]; [split; reflexivity | exact IH]. Qed.

Lemma iteration_request_eof (W : World) (choice : string) :
  choice = "1" \/ choice = "2" ->
  exists t texts,
    iteration W [choice] = (t, Continue []) /\ services t = map Stdout texts.
Proof.
  intros [-> | ->]; eexists; eexists (_ :: _ :: _ :: _ :: _ :: nil); split; reflexivity.
Qed.

Lemma process_video_calls_le (W : World) (self : YouTubeSummarizer.self_t) (url : string) :
  List.length (completion_calls (trace (YouTubeSummarizer.process_video W self url))) <= 1 /\
  List.length (transcript_calls (trace (YouTubeSummarizer.process_video W self url))) <= 1.
Proof.
  rewrite process_video_run.
  destruct (YouTubeSummarizer.get_video_id url) as [video_id | e]; [| simpl; lia].
  destruct (py_not video_id); [simpl; lia |].
  destruct (YouTubeTranscriptApi_get_transcript W video_id) as [cause | segments];
    [simpl; lia |].
  destruct (join " " (map text segments)) as [|c t]; [simpl; lia |].
  rewrite summarize_run by discriminate.
  destruct (tiktoken_encode W "gpt-4o-mini" _); [simpl; lia |].
  destruct (ChatGroq_init W _); simpl; lia.
Qed.

Lemma ask_calls_le (W : World) (self : MultiTools.self_t) (question : string) :
  List.length (completion_calls (trace (MultiTools.ask W self (Some question)))) <= 1 /\
  transcript_calls (trace (MultiTools.ask W self (Some question))) = [].
Proof.
  rewrite ask_run.
  destruct (tiktoken_encode W "gpt-4o-mini" _); [simpl; split; [lia | reflexivity] |].
  destruct (ChatGroq_init W _); simpl; split; try reflexivity; lia.
Qed.

(** X14.  Requests cost input: over a whole run of [main], the number of
    completion calls, and likewise the number of transcript calls, is at
    most half the number of input lines (each request takes its menu
    choice and one more line, and makes at most one call of each kind). *)
Theorem main_call_budget (W : World) (key : option string) (stdin : list string) :
  2 * List.length (completion_calls (services (fst (main W key stdin)))) <= List.length stdin /\
  2 * List.length (transcript_calls (services (fst (main W key stdin)))) <= List.length stdin.
Proof.
  destruct (unset key) eqn:K.
  { unfold main. rewrite K. simpl. lia. }
  remember (List.length stdin) as n eqn:Ln.
  revert stdin Ln. induction n as [n IH] using lt_wf_ind. intros stdin ->.
  assert (forall t texts rest,
            services t = map Stdout texts ->
            List.length rest < List.length stdin ->
            2 * List.length (completion_calls
                  (services (t ++ fst (main W key rest)))) <= List.length stdin /\
            2 * List.length (transcript_calls
                  (services (t ++ fst (main W key rest)))) <= List.length stdin) as Quiet.
  { intros t texts rest E L.
    destruct (prints_call_nothing texts) as [C T].
    rewrite services_app, completion_calls_app, transcript_calls_app, E, C, T.
    cbn [app]. destruct (IH _ L rest eq_refl). lia. }
  rewrite (main_step W key stdin K).
  destruct stdin as [|choice rest].
  - destruct (iteration_eof W) as [t [texts [-> E]]]. cbn [fst].
    rewrite E. destruct (prints_call_nothing texts) as [-> ->]. simpl. lia.
  - destruct (String.eqb_spec choice "1") as [-> | N1];
      [| destruct (String.eqb_spec choice "2") as [-> | N2]].
    + destruct rest as [|url rest].
      * destruct (iteration_request_eof W "1" (or_introl eq_refl)) as [t [texts [-> E]]].
        cbn [fst]. apply (Quiet t texts [] E). simpl. lia.
      * destruct (iteration_summarize W url rest) as [t [-> E]]. cbn [fst].
        rewrite services_app, completion_calls_app, transcript_calls_app, E.
        rewrite !completion_calls_app, !transcript_calls_app. cbn [completion_calls transcript_calls app].
        rewrite !length_app. cbn [List.length].
        destruct (process_video_calls_le W Scenario.summarizer url).
        destruct (IH (List.length rest) ltac:(simpl; lia) rest eq_refl). lia.
    + destruct rest as [|question rest].
      * destruct (iteration_request_eof W "2" (or_intror eq_refl)) as [t [texts [-> E]]].
        cbn [fst]. apply (Quiet t texts [] E). simpl. lia.
      * destruct (iteration_ask W question rest) as [t [-> E]]. cbn [fst].
        rewrite services_app, completion_calls_app, transcript_calls_app, E.
        rewrite !completion_calls_app, !transcript_calls_app. cbn [completion_calls transcript_calls app].
        rewrite !length_app. cbn [List.length].
        destruct (ask_calls_le W (Scenario.agent W) question) as [A ->].
        destruct (IH (List.length rest) ltac:(simpl; lia) rest eq_refl).
        cbn [List.length app]. lia.
    + destruct (iteration_other W choice rest N1 N2) as [t [texts [E [[-> _] | [-> _]]]]].
      * cbn [fst]. rewrite E. destruct (prints_call_nothing texts) as [-> ->]. simpl. lia.
      * cbn [fst]. apply (Quiet t texts rest E). simpl. lia.
Qed.

(** X15.  A request never ends the program and never changes what comes
    after it.  With the key set, after the choice "1" and a URL, or the
    choice "2" and a question, [main] prints the answer of the request,
    or "Error: " and the text of whatever exception the request raised,
    and then goes on exactly as [main] would on the remaining lines. *)
Theorem main_reports_and_continues (W : World) (key : option string) :
  unset key = false ->
  (forall url rest,
     exists t,
       main W key ("1" :: url :: rest) =
         ((t ++ fst (main W key rest))%list, snd (main W key rest)) /\
       In (Stdout match outcome (YouTubeSummarizer.process_video W Scenario.summarizer url) with
                  | Ok response => "LLM Response: 
" ++ response ++ "

"
                  | Raise e => "Error: " ++ str e
                  end) (services t)) /\
  (forall question rest,
     exists t,
       main W key ("2" :: question :: rest) =
         ((t ++ fst (main W key rest))%list, snd (main W key rest)) /\
       In (Stdout match outcome (MultiTools.ask W (Scenario.agent W) (Some question)) with
                  | Ok response => "LLM Response: 
" ++ response ++ "

"
                  | Raise e => "Error: " ++ str e
                  end) (services t)).
Proof.
  intros K. split.
  - intros url rest. rewrite (main_step W key _ K).
    destruct (iteration_summarize W url rest) as [t [-> E]].
    exists t. split; [reflexivity |].
    rewrite E. apply in_or_app. right. apply in_or_app. right. now left.
  - intros question rest. rewrite (main_step W key _ K).
    destruct (iteration_ask W question rest) as [t [-> E]].
    exists t. split; [reflexivity |].
    rewrite E. apply in_or_app. right. apply in_or_app. right. now left.
Qed.

Lemma main_reports_and_continues_witness :
  snd (main Scenario.world_down (Some "gsk_live") ["1"; "https://youtu.be/dQw4w9WgXcQ"; "3"])
    = Some (Exit 0) /\
  exists t,
    In (Stdout "Error: Failed to retrieve transcript: Subtitles are disabled for this video")
       (services t) /\
    fst (main Scenario.world_down (Some "gsk_live")
           ["1"; "https://youtu.be/dQw4w9WgXcQ"; "3"]) =
      (t ++ fst (main Scenario.world_down (Some "gsk_live") ["3"]))%list.
Proof.
  destruct (proj1 (main_reports_and_continues Scenario.world_down (Some "gsk_live") eq_refl)
              "https://youtu.be/dQw4w9WgXcQ" ["3"]) as [t [E I]].
  split.
  - rewrite E. reflexivity.
  - exists t. split; [exact I | now rewrite E].
Defined.

End MenuLoop.

(* ===================================================================== *)
(** * More about the summarizer pipeline                                  *)
(* ===================================================================== *)

Section SummarizerPipelineMore.
Import Py PyFacts Effects Scenario.

(** X16.  The transcript keeps the caption boundaries as long as no
    caption has a space in it: when the service delivers at least one
    segment and no text contains a space, splitting the returned
    transcript at the spaces gives the delivered texts back, in order. *)
Theorem get_transcript_round_trip (W : World) (video_id : string) (segments : list Segment) :
  video_id <> "" ->
  YouTubeTranscriptApi_get_transcript W video_id = inr segments ->
  segments <> [] ->
  Forall (fun s => ~ contains " " (text s)) segments ->
  exists transcript,
    outcome (YouTubeSummarizer.get_transcript W video_id) = Ok transcript /\
    split transcript " " = Ok (map text segments).
Proof.
  intros N E NE F. rewrite (get_transcript_run W video_id N), E.
  eexists. split; [reflexivity |].
  apply (split_join " "%char).
  - destruct segments; [contradiction | discriminate].
  - apply Forall_map. exact F.
Qed.

Lemma get_transcript_round_trip_witness :
  exists transcript,
    outcome (YouTubeSummarizer.get_transcript world_up "dQw4w9WgXcQ") = Ok transcript /\
    split transcript " " = Ok ["a"; "b"; "c"].
Proof.
  refine (get_transcript_round_trip world_up "dQw4w9WgXcQ" abc_segments _ eq_refl _ _).
  - discriminate.
  - discriminate.
  - repeat (constructor; [apply py_in_not_contains; reflexivity |]). constructor.
Defined.

(** X17.  Every failure of [process_video] comes from one stage, and the
    trace shows how far the run got: an exception of the parser or the
    missing-identifier error with nothing called; the transcript error or
    the missing-transcript error with the transcript call alone; a
    foreign exception (from the token diagnostic or the model
    constructor) with no completion call; or "AI summarization failed:
    ..." with exactly one completion call. *)
Theorem process_video_failures (W : World) (self : YouTubeSummarizer.self_t)
    (url : string) (e : exn) :
  outcome (YouTubeSummarizer.process_video W self url) = Raise e ->
  let t := trace (YouTubeSummarizer.process_video W self url) in
  (YouTubeSummarizer.get_video_id url = Raise e /\ t = []) \/
  (e = ValueError "Video ID is required" /\
   YouTubeSummarizer.get_video_id url = Ok "" /\ t = []) \/
  (exists video_id cause,
     e = Exception ("Failed to retrieve transcript: " ++ exn_text cause) /\
     YouTubeTranscriptApi_get_transcript W video_id = inl cause /\
     t = [TranscriptCall video_id]) \/
  (exists video_id,
     e = ValueError "Transcript is required for summarization" /\
     t = [TranscriptCall video_id]) \/
  (exists f,
     e = Foreign f /\ transcript_calls t <> [] /\ completion_calls t = []) \/
  (exists cause llm prompt,
     e = Exception ("AI summarization failed: " ++ exn_text cause) /\
     ChatGroq_invoke W llm prompt = inl cause /\
     completion_calls t = [(llm, prompt)]).
Proof.
  rewrite process_video_run.
  destruct (YouTubeSummarizer.get_video_id url) as [video_id | e0] eqn:G.
  2:{ intros H. injection H as <-. left. now split. }
  destruct (py_not video_id) eqn:N.
  { apply py_not_true in N as ->. intros H. injection H as <-.
    right. left. repeat split. }
  destruct (YouTubeTranscriptApi_get_transcript W video_id) as [cause | segments] eqn:F.
  { intros H. injection H as <-. right. right. left.
    exists video_id, cause. repeat split. exact F. }
  destruct (join " " (map text segments)) as [|c tr] eqn:T.
  { intros H. injection H as <-. right. right. right. left.
    exists video_id. repeat split. }
  rewrite summarize_run by discriminate.
  destruct (tiktoken_encode W "gpt-4o-mini" _) as [f | tokens].
  { intros H. injection H as <-. right. right. right. right. left.
    exists f. repeat split. discriminate. }
  destruct (ChatGroq_init W _) as [f |].
  { intros H. injection H as <-. right. right. right. right. left.
    exists f. repeat split. discriminate. }
  destruct (ChatGroq_invoke W _ _) as [cause | reply] eqn:C; [| discriminate].
  intros H. injection H as <-. right. right. right. right. right.
  eexists. eexists. eexists. split; [reflexivity |]. split; [exact C | reflexivity].
Qed.

Lemma process_video_failures_witness :
  let url := "https://youtu.be/dQw4w9WgXcQ" in
  let e := Exception "Failed to retrieve transcript: Subtitles are disabled for this video" in
  let t := trace (YouTubeSummarizer.process_video world_down summarizer url) in
  (YouTubeSummarizer.get_video_id url = Raise e /\ t = []) \/
  (e = ValueError "Video ID is required" /\
   YouTubeSummarizer.get_video_id url = Ok "" /\ t = []) \/
  (exists video_id cause,
     e = Exception ("Failed to retrieve transcript: " ++ exn_text cause) /\
     YouTubeTranscriptApi_get_transcript world_down video_id = inl cause /\
     t = [TranscriptCall video_id]) \/
  (exists video_id,
     e = ValueError "Transcript is required for summarization" /\
     t = [TranscriptCall video_id]) \/
  (exists f,
     e = Foreign f /\ transcript_calls t <> [] /\ completion_calls t = []) \/
  (exists cause llm prompt,
     e = Exception ("AI summarization failed: " ++ exn_text cause) /\
     ChatGroq_invoke world_down llm prompt = inl cause /\
     completion_calls t = [(llm, prompt)]).
Proof.
  exact (process_video_failures world_down summarizer "https://youtu.be/dQw4w9WgXcQ"
           (Exception "Failed to retrieve transcript: Subtitles are disabled for this video")
           eq_refl).
Defined.

End SummarizerPipelineMore.
